(** * Cloud-Resume-Analyzer: the parse / features / score pipeline

    A shallow embedding of [ml/parser.py], [ml/feature_extractor.py],
    [ml/scorer.py] and [ml/predict.py], and the properties of the pipeline
    proved over it.

    Conventions.
    - A Python [str] is a [string]; a character is a code point below 256.
    - A Python exception is a constructor of [exn]; a call that may raise
      returns a [result].
    - A Python [float] that the code only adds, compares and scales by halves
      is a rational [Q]: every such value is a multiple of 0.5 far below
      2^52, where binary floating point is exact.
    - The third-party libraries (the [re] engine on the three large patterns,
      the spaCy pipeline, the joblib model file and the scikit-learn
      classifier) are parameters of the development. *)

From Stdlib Require Import String Ascii List ZArith QArith Qminmax Lia Bool
  Sorting.Sorted Permutation.
From stdpp Require Import gmap strings list fin_maps sorting.

Import ListNotations.
Local Open Scope string_scope.
Local Open Scope list_scope.
Local Open Scope nat_scope.

(** ** Python's string primitives *)

Module Py.

Definition code (c : ascii) : nat := nat_of_ascii c.

(** [str.isspace] on the code points below 256. *)
Definition isspace (c : ascii) : bool :=
  let n := code c in
  ((9 <=? n) && (n <=? 13)) || ((28 <=? n) && (n <=? 32))
  || (n =? 133) || (n =? 160).

(** The line boundaries of [str.splitlines] below 256. *)
Definition is_linebreak (c : ascii) : bool :=
  let n := code c in
  ((10 <=? n) && (n <=? 13)) || ((28 <=? n) && (n <=? 30)) || (n =? 133).

Definition isdigit (c : ascii) : bool :=
  let n := code c in (48 <=? n) && (n <=? 57).

Definition lower_char (c : ascii) : ascii :=
  let n := code c in
  if ((65 <=? n) && (n <=? 90))
     || ((192 <=? n) && (n <=? 222) && negb (n =? 215))
  then ascii_of_nat (n + 32) else c.

(** [s.lower()] *)
Fixpoint lower (s : string) : string :=
  match s with
  | EmptyString => EmptyString
  | String c s' => String (lower_char c) (lower s')
  end.

Definition is_empty (s : string) : bool :=
  match s with EmptyString => true | _ => false end.

Fixpoint lstrip_by (p : ascii -> bool) (s : string) : string :=
  match s with
  | EmptyString => EmptyString
  | String c s' => if p c then lstrip_by p s' else s
  end.

Fixpoint rstrip_by (p : ascii -> bool) (s : string) : string :=
  match s with
  | EmptyString => EmptyString
  | String c s' =>
      let r := rstrip_by p s' in
      if is_empty r && p c then EmptyString else String c r
  end.

Definition strip_by (p : ascii -> bool) (s : string) : string :=
  rstrip_by p (lstrip_by p s).

(** [s.strip()] *)
Definition strip (s : string) : string := strip_by isspace s.

(** [s.strip(':')] *)
Definition strip_colon (s : string) : string :=
  strip_by (fun c => Ascii.eqb c ":"%char) s.

Definition snoc (s : string) (c : ascii) : string :=
  String.append s (String c EmptyString).

(** [s.splitlines()]: [cur] is the line being read, [after_cr] says that
    the previous character was a carriage return, so that a line feed
    right after it belongs to the same boundary. *)
Fixpoint splitlines_go (cur : option string) (after_cr : bool) (s : string)
  : list string :=
  match s with
  | EmptyString => match cur with Some l => [l] | None => [] end
  | String c s' =>
      if after_cr && (code c =? 10) then splitlines_go cur false s'
      else if is_linebreak c then
        match cur with Some l => l | None => EmptyString end
          :: splitlines_go None (code c =? 13) s'
      else
        splitlines_go
          (Some (snoc (match cur with Some l => l | None => EmptyString end) c))
          false s'
  end.

Definition splitlines (s : string) : list string := splitlines_go None false s.

(** [s.split()]: the maximal runs of non-whitespace characters. *)
Fixpoint split_go (cur : string) (s : string) : list string :=
  match s with
  | EmptyString => if is_empty cur then [] else [cur]
  | String c s' =>
      if isspace c
      then (if is_empty cur then split_go EmptyString s'
            else cur :: split_go EmptyString s')
      else split_go (snoc cur c) s'
  end.

Definition split (s : string) : list string := split_go EmptyString s.

(** [needle in hay] *)
Fixpoint contains (needle hay : string) : bool :=
  String.prefix needle hay
  || match hay with
     | EmptyString => false
     | String _ hay' => contains needle hay'
     end.

(** [s.split(sep)[0]] for a non-empty separator: the text before the first
    occurrence of [sep], the whole of [s] when there is none. *)
Fixpoint split_head (sep s : string) : string :=
  if String.prefix sep s then EmptyString
  else match s with
       | EmptyString => EmptyString
       | String c s' => String c (split_head sep s')
       end.

(** [sep.join(l)] *)
Fixpoint join (sep : string) (l : list string) : string :=
  match l with
  | [] => EmptyString
  | [x] => x
  | x :: l' => String.append x (String.append sep (join sep l'))
  end.

Definition digit_val (c : ascii) : option Z :=
  if isdigit c then Some (Z.of_nat (code c) - 48)%Z else None.

(** [int(s)] on a string of decimal digits; [None] stands for the
    [ValueError] of any other string. *)
Fixpoint int_go (acc : Z) (s : string) : option Z :=
  match s with
  | EmptyString => Some acc
  | String c s' =>
      match digit_val c with
      | Some d => int_go (10 * acc + d)%Z s'
      | None => None
      end
  end.

Definition int (s : string) : option Z :=
  if is_empty s then None else int_go 0%Z s.

Definition LF : string := String (ascii_of_nat 10) EmptyString.

End Py.

(** ** Exceptions and results *)

Inductive exn : Type :=
| IndexError
| FileNotFoundError
| OtherError (name : string).

Inductive result (A : Type) : Type :=
| Ok (a : A)
| Raise (e : exn).
Arguments Ok {A} a.
Arguments Raise {A} e.

Definition bind {A B : Type} (r : result A) (k : A -> result B) : result B :=
  match r with
  | Ok a => k a
  | Raise e => Raise e
  end.

(** ** The data model *)

(** An entity span of a spaCy document. *)
Record Ent : Type := {
  label_ : string;
  start_char : nat;
  ent_text : string
}.

Record Doc : Type := {
  doc_text : string;
  doc_ents : list Ent
}.

(** One item of the "experience" list.  Every key of a Python dictionary may
    be absent, so every field is an [option]. *)
Record ExperienceItem : Type := {
  title : option string;
  date_text : option string;
  bullets : option (list string)
}.

(** The parsed-resume dictionary. *)
Record Parsed : Type := {
  name : option string;
  emails : option (list string);
  phones : option (list string);
  skills : option (list string);
  experience : option (list ExperienceItem);
  education : option (list string);
  sections : option (list string);
  raw_text : option string
}.

(** A Python number: [int] or [float]. *)
Inductive pynum : Type :=
| PyInt (z : Z)
| PyFloat (q : Q).

(** The third-party text libraries: the named-entity recogniser of the spaCy
    pipeline and the matches of the three compiled patterns, each as the list
    of matched substrings from left to right.  [DATE_RANGE_RE] has one group,
    which spans the whole match, so [findall], [search(..).group(0)] and the
    truth value of [search] are all read off this one list. *)
Record TextLibs : Type := {
  ner : string -> list Ent;
  EMAIL_RE_matches : string -> list string;
  PHONE_RE_matches : string -> list string;
  DATE_RANGE_RE_findall : string -> list string
}.

(** ** ml/parser.py *)

Module Parser.

Definition SKILLS_SEED : list string :=
  [ "python"; "java"; "c++"; "c"; "tensorflow"; "pytorch"; "scikit-learn";
    "docker"; "kubernetes"; "aws"; "gcp"; "azure"; "nlp"; "computer vision";
    "pandas"; "numpy"; "sql"; "nosql"; "react"; "nodejs"; "git"; "rest" ].

Definition SECTION_HEADERS : list string :=
  [ "experience"; "work experience"; "professional experience";
    "education"; "skills"; "projects"; "certifications"; "summary";
    "objective" ].

(** [list(dict.fromkeys(l))]: the first occurrence of every element, in
    order. *)
Fixpoint fromkeys (l : list string) : list string :=
  match l with
  | [] => []
  | x :: l' => x :: List.filter (fun y => negb (String.eqb x y)) (fromkeys l')
  end.

(** [sorted(found)] on strings: by code points, lexicographically. *)
Definition sorted (found : gset string) : list string :=
  merge_sort String.le (elements found).

Definition extract_skills_from (text : string) (skills_seed : list string)
  : list string :=
  let text_low := Py.lower text in
  let found :=
    fold_left
      (fun (found : gset string) s =>
         if Py.contains (Py.lower s) text_low then {[ s ]} ∪ found else found)
      skills_seed (∅ : gset string) in
  sorted found.

Definition extract_skills (text : string) : list string :=
  extract_skills_from text SKILLS_SEED.

(** *** split_into_sections *)

(** The [sections] dictionary keeps its insertion order, which
    [parse_text] iterates over. *)
Definition dict : Type := list (string * string).

Fixpoint dict_get (d : dict) (k : string) : option string :=
  match d with
  | [] => None
  | (k', v) :: d' => if String.eqb k' k then Some v else dict_get d' k
  end.

Definition dict_keys (d : dict) : list string := map fst d.

(** [d.setdefault(k, ""); d[k] += v] *)
Fixpoint dict_append (d : dict) (k v : string) : dict :=
  match d with
  | [] => [(k, String.append EmptyString v)]
  | (k', v') :: d' =>
      if String.eqb k' k then (k', String.append v' v) :: d'
      else (k', v') :: dict_append d' k v
  end.

Record split_state : Type := {
  st_sections : dict;
  st_current : string;
  st_buffer : list string
}.

(** [if buffer: sections.setdefault(current, ""); sections[current] +=
    "\n".join(buffer) + "\n"; buffer = []] *)
Definition flush (st : split_state) : dict :=
  match st_buffer st with
  | [] => st_sections st
  | _ :: _ =>
      dict_append (st_sections st) (st_current st)
        (String.append (Py.join Py.LF (st_buffer st)) Py.LF)
  end.

Definition header_key (l : string) : string :=
  Py.strip (Py.strip_colon (Py.lower l)).

(** [any(h in low for h in SECTION_HEADERS) and len(l.split()) <= 5] *)
Definition is_header (l : string) : bool :=
  existsb (fun h => Py.contains h (header_key l)) SECTION_HEADERS
  && (length (Py.split l) <=? 5).

Definition split_step (st : split_state) (l : string) : split_state :=
  let low := header_key l in
  if String.length l =? 0 then
    {| st_sections := flush st; st_current := st_current st; st_buffer := [] |}
  else if is_header l then
    {| st_sections := flush st; st_current := low; st_buffer := [] |}
  else
    {| st_sections := st_sections st; st_current := st_current st;
       st_buffer := st_buffer st ++ [l] |}.

Definition split_lines (text : string) : list string :=
  map Py.strip (Py.splitlines text).

Definition split_init : split_state :=
  {| st_sections := []; st_current := "header"; st_buffer := [] |}.

Definition split_into_sections (text : string) : dict :=
  flush (fold_left split_step (split_lines text) split_init).

Section WithLibs.

Variable libs : TextLibs.

Definition nlp (text : string) : Doc :=
  {| doc_text := text; doc_ents := ner libs text |}.

(** [list(set(m.group(0) for m in EMAIL_RE.finditer(text)))]; the order
    of a Python set is unspecified, and nothing below depends on it. *)
Definition extract_emails (text : string) : list string :=
  elements (list_to_set (EMAIL_RE_matches libs text) : gset string).

Definition extract_phones (text : string) : list string :=
  fromkeys (map Py.strip (PHONE_RE_matches libs text)).

Definition date_search (l : string) : option string :=
  head (DATE_RANGE_RE_findall libs l).

Definition has_date (l : string) : bool :=
  match date_search l with Some _ => true | None => false end.

(** *** extract_name *)

Definition extract_name (doc : Doc) : result string :=
  match
    List.find
      (fun ent => String.eqb (label_ ent) "PERSON" && (start_char ent <? 120))
      (doc_ents doc)
  with
  | Some ent => Ok (ent_text ent)
  | None =>
      match Py.splitlines (Py.strip (doc_text doc)) with
      | [] => Raise IndexError
      | first_line :: _ =>
          if length (Py.split first_line) <=? 4
          then Ok (Py.strip first_line)
          else Ok EmptyString
      end
  end.

(** *** parse_experience_block *)

Definition block_lines (block_text : string) : list string :=
  List.filter (fun l => negb (Py.is_empty l))
    (map Py.strip (Py.splitlines block_text)).

(** The inner loop of the branch with a date on the line itself; [rest]
    is [lines[j:]].
    [while j < len(lines) and len(lines[j].split()) > 2:
       if DATE_RANGE_RE.search(lines[j]): break
       bullets.append(lines[j]); j += 1] *)
Fixpoint bullets_same_line (rest : list string) (j : nat)
    (acc : list string) : list string * nat :=
  match rest with
  | [] => (acc, j)
  | lj :: rest' =>
      if 2 <? length (Py.split lj) then
        if has_date lj then (acc, j)
        else bullets_same_line rest' (S j) (acc ++ [lj])
      else (acc, j)
  end.

(** The inner loop of the lookahead branch.
    [while j < len(lines) and not DATE_RANGE_RE.search(lines[j]):
       bullets.append(lines[j]); j += 1] *)
Fixpoint bullets_lookahead (rest : list string) (j : nat)
    (acc : list string) : list string * nat :=
  match rest with
  | [] => (acc, j)
  | lj :: rest' =>
      if has_date lj then (acc, j)
      else bullets_lookahead rest' (S j) (acc ++ [lj])
  end.

Definition next_has_date (lines : list string) (i : nat) : bool :=
  match lines !! (i + 1) with
  | Some l => has_date l
  | None => false
  end.

(** One iteration of the outer loop at index [i], where [line] is
    [lines[i]]: the item appended to [out] and the next value of [i]. *)
Definition exp_body (lines : list string) (i : nat) (line : string)
  : ExperienceItem * nat :=
  match DATE_RANGE_RE_findall libs line with
  | d :: _ =>
      let '(bs, j) := bullets_same_line (drop (i + 1) lines) (i + 1) [] in
      ({| title := Some (Py.strip (Py.split_head " - " line));
          date_text := Some (Py.strip d);
          bullets := Some bs |}, j)
  | [] =>
      if next_has_date lines i then
        let d := match lines !! (i + 1) with
                 | Some l => default EmptyString (date_search l)
                 | None => EmptyString
                 end in
        let '(bs, j) := bullets_lookahead (drop (i + 2) lines) (i + 2) [] in
        ({| title := Some (Py.strip line);
            date_text := Some (Py.strip d);
            bullets := Some bs |}, j)
      else
        ({| title := Some line; date_text := Some EmptyString;
            bullets := Some [] |}, i + 1)
  end.

(** The state of the outer loop: the index [i] and the list [out]. *)
Definition exp_state : Type := (nat * list ExperienceItem)%type.

(** [i < len(lines)] *)
Definition exp_cond (lines : list string) (st : exp_state) : bool :=
  fst st <? length lines.

Definition exp_iter (lines : list string) (st : exp_state) : exp_state :=
  match lines !! (fst st) with
  | Some line =>
      let '(item, i') := exp_body lines (fst st) line in
      (i', snd st ++ [item])
  | None => st
  end.

(** [while i < len(lines): ...], cut off after [fuel] iterations. *)
Fixpoint exp_loop (fuel : nat) (lines : list string) (st : exp_state)
  : exp_state :=
  match fuel with
  | 0 => st
  | S fuel' =>
      if exp_cond lines st then exp_loop fuel' lines (exp_iter lines st)
      else st
  end.

(** The loop is given one unit of fuel per line; [exp_loop_exits] shows
    that it leaves through its condition before the fuel is used up. *)
Definition parse_experience_block (block_text : string)
  : list ExperienceItem :=
  let lines := block_lines block_text in
  snd (exp_loop (length lines) lines (0, [])).

(** *** parse_text *)

Definition experience_of (sections : dict) : list ExperienceItem :=
  flat_map
    (fun kv : string * string =>
       if Py.contains "experience" (fst kv) || Py.contains "work" (fst kv)
       then parse_experience_block (snd kv) else [])
    sections.

Definition education_of (sections : dict) : list string :=
  flat_map
    (fun kv : string * string =>
       if Py.contains "education" (fst kv)
       then List.filter (fun l => negb (Py.is_empty l))
              (map Py.strip (Py.splitlines (snd kv)))
       else [])
    sections.

Definition parse_text (text : string) : result Parsed :=
  let doc := nlp text in
  bind (extract_name doc) (fun name =>
  let emails := extract_emails text in
  let phones := extract_phones text in
  let skills := extract_skills text in
  let sections := split_into_sections text in
  let experience_blocks := experience_of sections in
  let education := education_of sections in
  Ok {| name := Some name;
        emails := Some emails;
        phones := Some phones;
        skills := Some skills;
        experience := Some experience_blocks;
        education := Some education;
        sections := Some (dict_keys sections);
        raw_text := Some text |}).

End WithLibs.

End Parser.

(** ** ml/feature_extractor.py *)

Module FeatureExtractor.

Definition all_digits4 (a b c d : ascii) : bool :=
  Py.isdigit a && Py.isdigit b && Py.isdigit c && Py.isdigit d.

(** [DATE_RE.findall(dt)] for [DATE_RE = re.compile(r'(\d{4})')]: the
    non-overlapping runs of four digits, from left to right. *)
Fixpoint DATE_RE_findall (dt : string) : list string :=
  match dt with
  | EmptyString => []
  | String a s1 =>
      match s1 with
      | String b (String c (String d rest)) =>
          if all_digits4 a b c d
          then String a (String b (String c (String d EmptyString)))
                 :: DATE_RE_findall rest
          else DATE_RE_findall s1
      | _ => []
      end
  end.

Definition experience_list (parsed : Parsed) : list ExperienceItem :=
  default [] (experience parsed).

(** One pass of the loop over the experience items: what it appends to
    [years].  A failing [int] is the [except: continue] of the source. *)
Definition years_step (years : list Z) (exp : ExperienceItem) : list Z :=
  let dt := default EmptyString (date_text exp) in
  match DATE_RE_findall dt with
  | f0 :: f1 :: _ =>
      match Py.int f0, Py.int f1 with
      | Some start, Some end_ => years ++ [Z.max 0 (end_ - start)]
      | _, _ => years
      end
  | [_] => years ++ [1%Z]
  | [] => years
  end.

Definition sum_Z (l : list Z) : Z := fold_right Z.add 0%Z l.

(** [sum(len(exp.get("bullets", [])) for exp in parsed.get("experience", []))] *)
Definition total_bullets (parsed : Parsed) : Z :=
  sum_Z (map (fun exp => Z.of_nat (length (default [] (bullets exp))))
             (experience_list parsed)).

Definition estimate_years_experience (parsed : Parsed) : Q :=
  let years := fold_left years_step (experience_list parsed) [] in
  match years with
  | [] => Qmin (1 + inject_Z (total_bullets parsed) * (1 # 2))%Q 20%Q
  | _ :: _ => inject_Z (sum_Z years)
  end.

Definition count_skills (parsed : Parsed) : Z :=
  Z.of_nat (length (default [] (skills parsed))).

(** The truth value of [parsed.get(key)] for a list-valued key. *)
Definition truthy (v : option (list string)) : bool :=
  match v with
  | Some (_ :: _) => true
  | _ => false
  end.

Definition formatting_score (parsed : Parsed) : Q :=
  let score := 0%Q in
  let n_sections := Z.max 0 (Z.of_nat (length (default [] (sections parsed)))) in
  let score := (score + inject_Z (Z.min n_sections 5) * 2)%Q in
  let score := if truthy (emails parsed) then (score + 3)%Q else score in
  let score := if truthy (phones parsed) then (score + 2)%Q else score in
  let bullets := total_bullets parsed in
  let score := (score + inject_Z (Z.min bullets 10) * (1 # 2))%Q in
  score.

Definition extract_features (parsed : Parsed) : gmap string pynum :=
  let feats : gmap string pynum := ∅ in
  let feats := <["years_exp" := PyFloat (estimate_years_experience parsed)]> feats in
  let feats := <["skill_count" := PyInt (count_skills parsed)]> feats in
  let feats := <["format_score" := PyFloat (formatting_score parsed)]> feats in
  let feats :=
    <["num_experience_items" :=
        PyInt (Z.max 0 (Z.of_nat (length (experience_list parsed))))]> feats in
  feats.

End FeatureExtractor.

(** ** ml/scorer.py *)

Module Scorer.

(** A fitted scikit-learn classifier: [predict] gives the label of one
    row, [predict_proba], which not every classifier has, the class
    probabilities of one row (there is at least one class). *)
Record Classifier : Type := {
  clf_predict : list pynum -> Z;
  clf_predict_proba : option (list pynum -> Q * list Q)
}.

(** The model file: whether [MODEL_PATH] exists, and what [joblib.load]
    gives on it. *)
Record ModelStore : Type := {
  path_exists : bool;
  joblib_load : result (Classifier * list string)
}.

Record Score : Type := {
  label : option Z;
  confidence : option Q
}.

Definition load_model (store : ModelStore)
  : result (Classifier * list string) :=
  if negb (path_exists store) then Raise FileNotFoundError
  else joblib_load store.

(** [row.max()] *)
Definition row_max (row : Q * list Q) : Q :=
  fold_left Qmax (snd row) (fst row).

(** [[features.get(f, 0) for f in feature_list]] *)
Definition classifier_input (features : gmap string pynum)
    (feature_list : list string) : list pynum :=
  map (fun f => default (PyInt 0) (features !! f)) feature_list.

Definition predict (store : ModelStore) (features : gmap string pynum)
  : result Score :=
  bind (load_model store) (fun loaded =>
    let '(model, feature_list) := loaded in
    let X := classifier_input features feature_list in
    let score_label := clf_predict model X in
    let prob :=
      match clf_predict_proba model with
      | Some predict_proba => Some (row_max (predict_proba X))
      | None => None
      end in
    Ok {| label := Some score_label; confidence := prob |}).

End Scorer.

(** ** ml/predict.py *)

Module Predict.

Record Output : Type := {
  out_parsed : Parsed;
  out_features : gmap string pynum;
  out_score : Scorer.Score
}.

Definition no_score : Scorer.Score :=
  {| Scorer.label := None; Scorer.confidence := None |}.

(** [try: score = scorer_predict(feats)
    except FileNotFoundError: score = {"label": None, "confidence": None}] *)
Definition try_score (store : Scorer.ModelStore) (feats : gmap string pynum)
  : result Scorer.Score :=
  match Scorer.predict store feats with
  | Ok score => Ok score
  | Raise FileNotFoundError => Ok no_score
  | Raise e => Raise e
  end.

Definition run_inference_on_text (libs : TextLibs) (store : Scorer.ModelStore)
    (text : string) : result Output :=
  bind (Parser.parse_text libs text) (fun parsed =>
    let feats := FeatureExtractor.extract_features parsed in
    bind (try_score store feats) (fun score =>
      Ok {| out_parsed := parsed; out_features := feats; out_score := score |})).

End Predict.

(** ** ml/predict.py: run_from_file *)

Module PredictFile.

(** [open(path, "r", encoding="utf8").read()]: the text of the file, or the
    exception that opening or decoding it raises. *)
Definition FileSystem : Type := string -> result string.

Definition run_from_file (fs : FileSystem) (libs : TextLibs)
    (store : Scorer.ModelStore) (path : string) : result Predict.Output :=
  bind (fs path) (fun text => Predict.run_inference_on_text libs store text).

End PredictFile.

(** ** ml/scorer.py: train *)

Module Train.

(** pandas and scikit-learn as [train] uses them: the data frame read from
    the CSV file with its column names, and the classifier fitted on it.
    [fit_rf] and [fit_lr] stand for everything between the column check and
    the dump: filling the gaps, the split with its fixed seed, the fit of the
    random forest or of the logistic regression and the report. *)
Record TrainLibs : Type := {
  DataFrame : Type;
  read_csv : string -> result DataFrame;
  df_columns : DataFrame -> list string;
  fit_rf : DataFrame -> result Scorer.Classifier;
  fit_lr : DataFrame -> result Scorer.Classifier
}.

Definition features : list string :=
  ["years_exp"; "skill_count"; "format_score"; "num_experience_items"].

(** [all(c in df.columns for c in features + ["label"])] *)
Definition has_columns (columns : list string) : bool :=
  forallb (fun c => existsb (String.eqb c) columns) (features ++ ["label"]).

(** [train(train_csv_path, model_type)]: the model file it leaves behind.
    [joblib.dump((model, features), MODEL_PATH)] writes the file that
    [joblib.load] reads back. *)
Definition train (tl : TrainLibs) (train_csv_path model_type : string)
  : result Scorer.ModelStore :=
  bind (read_csv tl train_csv_path) (fun df =>
    if negb (has_columns (df_columns tl df)) then Raise (OtherError "ValueError")
    else
      bind (if String.eqb model_type "rf" then fit_rf tl df else fit_lr tl df)
        (fun model =>
           Ok {| Scorer.path_exists := true;
                 Scorer.joblib_load := Ok (model, features) |})).

End Train.

(** ** The properties, in the words of the specification *)

Module Spec.

(** [needle] occurs in [hay] as a substring. *)
Definition substring (needle hay : string) : Prop :=
  exists before after : string,
    hay = String.append before (String.append needle after).

(** The pipeline as the plain composition of its three stages. *)
Definition pipeline (libs : TextLibs) (store : Scorer.ModelStore)
    (text : string) : result Predict.Output :=
  bind (Parser.parse_text libs text) (fun parsed =>
    bind (Scorer.predict store (FeatureExtractor.extract_features parsed))
      (fun score =>
         Ok {| Predict.out_parsed := parsed;
               Predict.out_features := FeatureExtractor.extract_features parsed;
               Predict.out_score := score |})).


(** A section-header line: at most 5 whitespace-separated words, and its
    lowercased, colon-stripped form contains a known header keyword. *)
Definition header_line (l : string) : Prop :=
  length (Py.split l) <= 5
  /\ exists h, In h Parser.SECTION_HEADERS
               /\ substring h (Py.strip (Py.strip_colon (Py.lower l))).

(** The lines of the input that are neither blank nor headers, each with
    the name of the section that is current when it is read: the current
    section, [current] at first, changes at every header line. *)
Fixpoint assign (current : string) (lines : list string)
  : list (string * string) :=
  match lines with
  | [] => []
  | l :: ls =>
      if String.length l =? 0 then assign current ls
      else if Parser.is_header l then assign (Parser.header_key l) ls
      else (current, l) :: assign current ls
  end.

(** The lines assigned to section [k], in order. *)
Definition lines_in (k : string) (a : list (string * string)) : list string :=
  map snd (List.filter (fun kl => String.eqb (fst kl) k) a).

(** Every line followed by a line feed. *)
Fixpoint text_of (ls : list string) : string :=
  match ls with
  | [] => EmptyString
  | l :: ls' => String.append l (String.append Py.LF (text_of ls'))
  end.

(** The text a section has after the lines [ls] were appended to a
    section whose entry was [old]; without lines the entry is as it was. *)
Definition appended (old : option string) (ls : list string) : option string :=
  match ls with
  | [] => old
  | _ :: _ => Some (String.append (default EmptyString old) (text_of ls))
  end.

(** A string of exactly four decimal digits. *)
Definition four_digits (f : string) : Prop :=
  exists a b c d,
    f = String a (String b (String c (String d EmptyString)))
    /\ FeatureExtractor.all_digits4 a b c d = true.

(** The string holds no line boundary. *)
Fixpoint no_linebreak (s : string) : bool :=
  match s with
  | EmptyString => true
  | String c s' => negb (Py.is_linebreak c) && no_linebreak s'
  end.

(** The number a string of decimal digits denotes. *)
Definition year_value (s : string) : Z :=
  fold_left (fun acc c => (10 * acc + (Z.of_nat (Py.code c) - 48))%Z)
    (list_ascii_of_string s) 0%Z.

(** What one experience entry contributes to the years of experience:
    with at least two 4-digit years in its date_text, the second minus
    the first, but not less than 0; with exactly one, 1; otherwise
    nothing. *)
Definition contribution (exp : ExperienceItem) : option Z :=
  match FeatureExtractor.DATE_RE_findall (default EmptyString (date_text exp)) with
  | first :: second :: _ => Some (Z.max 0 (year_value second - year_value first))
  | [_] => Some 1%Z
  | [] => None
  end.

Definition contributions (parsed : Parsed) : list Z :=
  omap contribution (FeatureExtractor.experience_list parsed).


(** The four parts of the formatting score. *)
Definition section_points (parsed : Parsed) : Q :=
  (inject_Z (Z.min (Z.of_nat (length (default [] (sections parsed)))) 5) * 2)%Q.

Definition email_points (parsed : Parsed) : Q :=
  match emails parsed with Some (_ :: _) => 3%Q | _ => 0%Q end.

Definition phone_points (parsed : Parsed) : Q :=
  match phones parsed with Some (_ :: _) => 2%Q | _ => 0%Q end.

Definition bullet_points (parsed : Parsed) : Q :=
  (inject_Z (Z.min (FeatureExtractor.total_bullets parsed) 10) * (1 # 2))%Q.

End Spec.

(** ** Test data *)

Module Demo.

(** A recogniser and patterns that find nothing. *)
Definition silent_libs : TextLibs :=
  {| ner := fun _ => [];
     EMAIL_RE_matches := fun _ => [];
     PHONE_RE_matches := fun _ => [];
     DATE_RANGE_RE_findall := fun _ => [] |}.

(** A store without a model file: the state of a fresh checkout. *)
Definition no_model : Scorer.ModelStore :=
  {| Scorer.path_exists := false;
     Scorer.joblib_load := Raise (OtherError "unreachable") |}.

Definition features4 : list string :=
  ["years_exp"; "skill_count"; "format_score"; "num_experience_items"].

(** A classifier with class probabilities. *)
Definition clf_proba : Scorer.Classifier :=
  {| Scorer.clf_predict := fun _ => 1%Z;
     Scorer.clf_predict_proba := Some (fun _ => (1 # 4, [3 # 4])) |}.


Definition store_of (clf : Scorer.Classifier) : Scorer.ModelStore :=
  {| Scorer.path_exists := true;
     Scorer.joblib_load := Ok (clf, features4) |}.

(** A model file that joblib cannot read. *)
Definition broken_model : Scorer.ModelStore :=
  {| Scorer.path_exists := true;
     Scorer.joblib_load := Raise (OtherError "UnpicklingError") |}.

(** The sample resume of the demo at the end of [parser.py]. *)
Definition sample : string :=
  "Alice B" +:+ Py.LF +:+
  "    alice@example.com | +91 9876543210" +:+ Py.LF +:+ Py.LF +:+
  "    Professional Experience" +:+ Py.LF +:+
  "    ML Engineer - Acme Corp Feb 2019 - Sep 2022" +:+ Py.LF +:+
  "    - Built models using python and pytorch" +:+ Py.LF +:+
  "    - Deployed with docker and AWS" +:+ Py.LF +:+ Py.LF +:+
  "    Education" +:+ Py.LF +:+
  "    B.Tech in Computer Science, XYZ University, 2018" +:+ Py.LF +:+ Py.LF +:+
  "    Skills" +:+ Py.LF +:+
  "    Python, PyTorch, TensorFlow, Docker, AWS" +:+ Py.LF +:+ "    ".

(** What [parse_text] makes of the sample, the emails and phones apart. *)
Definition sample_parsed : Parsed :=
  {| name := Some "Alice B";
     emails := Some ["alice@example.com"];
     phones := Some ["+91 9876543210"];
     skills := Some ["aws"; "c"; "docker"; "python"; "pytorch"; "tensorflow"];
     experience :=
       Some [ {| title := Some "ML Engineer";
                 date_text := Some "Feb 2019 - Sep 2022";
                 bullets := Some [ "- Built models using python and pytorch";
                                   "- Deployed with docker and AWS" ] |} ];
     education := Some ["B.Tech in Computer Science, XYZ University, 2018"];
     sections := Some ["header"; "professional experience"; "education";
                       "skills"];
     raw_text := Some sample |}.

Definition empty_parsed : Parsed :=
  {| name := None; emails := None; phones := None; skills := None;
     experience := None; education := None; sections := None;
     raw_text := None |}.

End Demo.

(** ** Further notions used in the properties below *)

Module Notions.

(** The item of the fallback branch of [parse_experience_block]. *)
Definition plain_item (line : string) : ExperienceItem :=
  {| title := Some line; date_text := Some EmptyString; bullets := Some [] |}.

(** The number of bullets of a list of experience items. *)
Definition bullet_count (items : list ExperienceItem) : nat :=
  fold_right (fun item n => length (default [] (bullets item)) + n) 0 items.

(** A well-formed experience item: the three keys are present, and its
    bullets are lines of the block without a date. *)
Definition item_ok (libs : TextLibs) (lines : list string)
    (item : ExperienceItem) : Prop :=
  is_Some (title item) /\ is_Some (date_text item)
  /\ exists bs, bullets item = Some bs
                /\ List.Forall
                     (fun b => In b lines /\ Parser.has_date libs b = false)
                     bs.

(** The invariant of the outer loop of [parse_experience_block]. *)
Definition exp_inv (libs : TextLibs) (lines : list string)
    (st : Parser.exp_state) : Prop :=
  length (snd st) + bullet_count (snd st) <= fst st
  /\ List.Forall (item_ok libs lines) (snd st).

(** A PERSON entity that starts in the first 120 characters. *)
Definition leading_person (ent : Ent) : Prop :=
  label_ ent = "PERSON" /\ start_char ent < 120.

(** A line that is neither blank nor a section header. *)
Definition content_line (l : string) : bool :=
  negb (String.length l =? 0) && negb (Parser.is_header l).


End Notions.

(** ** The demo of the source, run through the embedding *)

Example sample_sections :
  Parser.dict_keys (Parser.split_into_sections Demo.sample)
  = ["header"; "professional experience"; "education"; "skills"]
  /\ Parser.dict_get (Parser.split_into_sections Demo.sample) "education"
     = Some ("B.Tech in Computer Science, XYZ University, 2018" +:+ Py.LF).
Proof. split; vm_compute; reflexivity. Qed.

Example sample_skills :
  Parser.extract_skills Demo.sample
  = ["aws"; "c"; "docker"; "python"; "pytorch"; "tensorflow"].
Proof. vm_compute. reflexivity. Qed.

Example sample_years :
  FeatureExtractor.DATE_RE_findall "Feb 2019 - Sep 2022" = ["2019"; "2022"]
  /\ FeatureExtractor.estimate_years_experience Demo.sample_parsed = 3%Q.
Proof. split; vm_compute; reflexivity. Qed.

Example sample_format_score :
  (FeatureExtractor.formatting_score Demo.sample_parsed == 14)%Q.
Proof. vm_compute. reflexivity. Qed.

Example empty_years :
  (FeatureExtractor.estimate_years_experience Demo.empty_parsed == 1)%Q.
Proof. vm_compute. reflexivity. Qed.

(** ** formatting_score *)

Import FeatureExtractor.

Lemma sum_Z_nonneg (l : list Z) : Forall (fun z => 0 <= z)%Z l -> (0 <= sum_Z l)%Z.
Proof.
  induction 1 as [|z l Hz _ IH]; simpl; lia.
Qed.

Lemma total_bullets_nonneg (parsed : Parsed) : (0 <= total_bullets parsed)%Z.
Proof.
  unfold total_bullets. apply sum_Z_nonneg.
  induction (experience_list parsed) as [|exp exps IH]; simpl; constructor.
  - lia.
  - exact IH.
Qed.

Lemma formatting_score_parts (parsed : Parsed) :
  (formatting_score parsed ==
   Spec.section_points parsed + Spec.email_points parsed
   + Spec.phone_points parsed + Spec.bullet_points parsed)%Q.
Proof.
  unfold formatting_score, Spec.section_points, Spec.email_points,
    Spec.phone_points, Spec.bullet_points, truthy.
  rewrite Z.max_r by lia.
  destruct (emails parsed) as [[|e es]|], (phones parsed) as [[|ph phs]|]; ring.
Qed.

(** C10. [formatting_score] is the sum of four parts: at most 10.0 from the
    sections (their number capped at 5, times 2.0), 3.0 for a non-empty
    emails list, 2.0 for a non-empty phones list and at most 5.0 from the
    bullets (their number capped at 10, times 0.5); no part is negative, so
    the score lies between 0.0 and 20.0 inclusive. *)
Theorem formatting_score_bounds (parsed : Parsed) :
  (formatting_score parsed ==
     Spec.section_points parsed + Spec.email_points parsed
     + Spec.phone_points parsed + Spec.bullet_points parsed)%Q
  /\ (0 <= Spec.section_points parsed <= 10)%Q
  /\ (0 <= Spec.email_points parsed <= 3)%Q
  /\ (0 <= Spec.phone_points parsed <= 2)%Q
  /\ (0 <= Spec.bullet_points parsed <= 5)%Q
  /\ (0 <= formatting_score parsed <= 20)%Q.
Proof.
  pose proof (total_bullets_nonneg parsed) as Hb.
  assert (Hs : (0 <= Spec.section_points parsed <= 10)%Q).
  { unfold Spec.section_points.
    set (n := Z.min _ 5). assert (0 <= n <= 5)%Z by (subst n; lia).
    unfold Qle, Qmult, inject_Z; simpl. lia. }
  assert (He : (0 <= Spec.email_points parsed <= 3)%Q).
  { unfold Spec.email_points.
    destruct (emails parsed) as [[|e es]|]; unfold Qle; simpl; lia. }
  assert (Hp : (0 <= Spec.phone_points parsed <= 2)%Q).
  { unfold Spec.phone_points.
    destruct (phones parsed) as [[|e es]|]; unfold Qle; simpl; lia. }
  assert (Hu : (0 <= Spec.bullet_points parsed <= 5)%Q).
  { unfold Spec.bullet_points.
    set (n := Z.min _ 10). assert (0 <= n <= 10)%Z by (subst n; lia).
    unfold Qle, Qmult, inject_Z; simpl. lia. }
  split; [apply formatting_score_parts|].
  do 4 (split; [assumption|]).
  rewrite formatting_score_parts.
  destruct Hs, He, Hp, Hu. split.
  - change 0%Q with (0 + 0 + 0 + 0)%Q.
    do 3 (apply Qplus_le_compat; [|assumption]). assumption.
  - change 20%Q with (10 + 3 + 2 + 5)%Q.
    do 3 (apply Qplus_le_compat; [|assumption]). assumption.
Qed.

(** ** extract_features *)

(** C3. For every parsed-resume dictionary, whichever of its fields are
    present, [extract_features] returns a dictionary with exactly the four
    keys "years_exp", "skill_count", "format_score" and
    "num_experience_items", each bound to a number. *)
Theorem extract_features_fixed_size (parsed : Parsed) :
  dom (extract_features parsed)
  = ({[ "years_exp"; "skill_count"; "format_score"; "num_experience_items" ]}
      : gset string)
  /\ size (extract_features parsed) = 4
  /\ extract_features parsed !! "years_exp"
     = Some (PyFloat (estimate_years_experience parsed))
  /\ extract_features parsed !! "skill_count"
     = Some (PyInt (count_skills parsed))
  /\ extract_features parsed !! "format_score"
     = Some (PyFloat (formatting_score parsed))
  /\ extract_features parsed !! "num_experience_items"
     = Some (PyInt (Z.of_nat (length (experience_list parsed)))).
Proof.
  unfold extract_features; cbv zeta.
  split; [rewrite !dom_insert_L, dom_empty_L; set_solver|].
  split; [reflexivity|].
  do 3 (split; [reflexivity|]).
  rewrite Z.max_r by lia. reflexivity.
Qed.

(** ** scorer.predict *)


Lemma predict_raises (store : Scorer.ModelStore) (features : gmap string pynum)
    (e : exn) :
  Scorer.predict store features = Raise e <-> Scorer.load_model store = Raise e.
Proof.
  unfold Scorer.predict.
  destruct (Scorer.load_model store) as [[model feature_list]|e']; simpl.
  - split; discriminate.
  - split; intros H; injection H as ->; reflexivity.
Qed.




Example predict_on_empty_features :
  Scorer.predict (Demo.store_of Demo.clf_proba) ∅
  = Ok {| Scorer.label := Some 1%Z; Scorer.confidence := Some (3 # 4) |}
  /\ Scorer.classifier_input ∅ Demo.features4
     = [PyInt 0; PyInt 0; PyInt 0; PyInt 0].
Proof. split; vm_compute; reflexivity. Qed.

(** ** parse_text *)

Import Parser.

Lemma extract_name_blank (libs : TextLibs) (text : string) :
  Py.strip text = EmptyString ->
  (forall ent, In ent (ner libs text) ->
     label_ ent = "PERSON" -> 120 <= start_char ent) ->
  extract_name (nlp libs text) = Raise IndexError.
Proof.
  intros Hblank Hents. unfold extract_name, nlp; simpl.
  destruct (List.find _ (ner libs text)) as [ent|] eqn:Hfind.
  - apply find_some in Hfind. destruct Hfind as [Hin Hp].
    apply andb_prop in Hp. destruct Hp as [Hl Hs].
    apply String.eqb_eq in Hl. apply Nat.ltb_lt in Hs.
    specialize (Hents ent Hin Hl). lia.
  - rewrite Hblank. reflexivity.
Qed.

(** C8, at the failing input. On a text with nothing but whitespace, the
    empty text among them, in which the recogniser finds no PERSON entity
    that starts in the first 120 characters, [parse_text] raises
    [IndexError] from the first-line fallback of [extract_name] and returns
    no record. *)
Theorem parse_text_blank_raises (libs : TextLibs) (text : string) :
  Py.strip text = EmptyString ->
  (forall ent, In ent (ner libs text) ->
     label_ ent = "PERSON" -> 120 <= start_char ent) ->
  parse_text libs text = Raise IndexError.
Proof.
  intros Hblank Hents. unfold parse_text.
  rewrite (extract_name_blank libs text Hblank Hents). reflexivity.
Qed.

Lemma parse_text_blank_raises_witness :
  parse_text Demo.silent_libs EmptyString = Raise IndexError.
Proof.
  apply (parse_text_blank_raises Demo.silent_libs EmptyString).
  - reflexivity.
  - simpl. intros ent [].
Defined.

(** The part of C8 that holds: a record that [parse_text] returns has all
    eight fields, and its raw_text is the input. *)
Lemma parse_text_fields (libs : TextLibs) (text : string) (parsed : Parsed) :
  parse_text libs text = Ok parsed ->
  is_Some (name parsed) /\ is_Some (emails parsed) /\ is_Some (phones parsed)
  /\ is_Some (skills parsed) /\ is_Some (experience parsed)
  /\ is_Some (education parsed) /\ is_Some (sections parsed)
  /\ raw_text parsed = Some text.
Proof.
  unfold parse_text.
  destruct (extract_name (nlp libs text)) as [n|e]; simpl; [|discriminate].
  intros H; injection H as <-; simpl. repeat split; eexists; reflexivity.
Qed.

(** [parse_text] returns whenever the name can be extracted, and the
    fallback of [extract_name] only fails on an empty first-line list. *)
Lemma parse_text_returns (libs : TextLibs) (text : string) :
  Py.splitlines (Py.strip text) <> [] ->
  exists parsed, parse_text libs text = Ok parsed.
Proof.
  intros Hlines. unfold parse_text, extract_name, nlp; simpl.
  destruct (List.find _ (ner libs text)) as [ent|]; simpl; [eauto|].
  destruct (Py.splitlines (Py.strip text)) as [|l ls]; [congruence|].
  destruct (length (Py.split l) <=? 4); simpl; eauto.
Qed.

(** ** run_inference_on_text *)

Import Predict.

Lemma try_score_ok (store : Scorer.ModelStore) (feats : gmap string pynum)
    (score : Scorer.Score) :
  Scorer.predict store feats = Ok score -> try_score store feats = Ok score.
Proof. intros H. unfold try_score. rewrite H. reflexivity. Qed.

Lemma try_score_missing (store : Scorer.ModelStore) (feats : gmap string pynum) :
  Scorer.load_model store = Raise FileNotFoundError ->
  try_score store feats = Ok no_score.
Proof.
  intros H. apply (proj2 (predict_raises store feats _)) in H.
  unfold try_score. rewrite H. reflexivity.
Qed.

Lemma try_score_other (store : Scorer.ModelStore) (feats : gmap string pynum)
    (e : exn) :
  Scorer.predict store feats = Raise e -> e <> FileNotFoundError ->
  try_score store feats = Raise e.
Proof.
  intros H Hne. unfold try_score. rewrite H.
  destruct e; congruence.
Qed.

(** With the model file absent the composition raises, and
    [run_inference_on_text] returns the placeholder score. *)
Lemma run_inference_not_composition :
  run_inference_on_text Demo.silent_libs Demo.no_model "Alice B"
  <> Spec.pipeline Demo.silent_libs Demo.no_model "Alice B"
  /\ Spec.pipeline Demo.silent_libs Demo.no_model "Alice B"
     = Raise FileNotFoundError
  /\ exists out,
       run_inference_on_text Demo.silent_libs Demo.no_model "Alice B" = Ok out
       /\ out_score out = no_score.
Proof.
  assert (Hp : Spec.pipeline Demo.silent_libs Demo.no_model "Alice B"
               = Raise FileNotFoundError) by reflexivity.
  assert (Hr : exists out,
             run_inference_on_text Demo.silent_libs Demo.no_model "Alice B"
             = Ok out /\ out_score out = no_score).
  { eexists. split; reflexivity. }
  split; [|split; assumption].
  rewrite Hp. destruct Hr as (out & -> & _). discriminate.
Qed.

(** C1, amended. For every input text, when loading the model does not
    raise [FileNotFoundError], [run_inference_on_text] equals the
    composition of the three pipeline stages: whenever it returns, its
    "parsed" field is [parse_text(text)], its "features" field is
    [extract_features(parse_text(text))] and its "score" field is the
    scorer's prediction on exactly those features; and it returns whenever
    the stages do. *)
Theorem run_inference_is_composition (libs : TextLibs)
    (store : Scorer.ModelStore) (text : string) :
  Scorer.load_model store <> Raise FileNotFoundError ->
  run_inference_on_text libs store text = Spec.pipeline libs store text
  /\ (forall out,
        run_inference_on_text libs store text = Ok out ->
        parse_text libs text = Ok (out_parsed out)
        /\ out_features out = extract_features (out_parsed out)
        /\ Scorer.predict store (out_features out) = Ok (out_score out))
  /\ (forall parsed score,
        parse_text libs text = Ok parsed ->
        Scorer.predict store (extract_features parsed) = Ok score ->
        run_inference_on_text libs store text
        = Ok {| out_parsed := parsed;
                out_features := extract_features parsed;
                out_score := score |}).
Proof.
  intros Hload.
  assert (Htry : forall feats, try_score store feats = Scorer.predict store feats).
  { intros feats. unfold try_score.
    destruct (Scorer.predict store feats) as [s|e] eqn:Hp; [reflexivity|].
    apply predict_raises in Hp. destruct e; congruence. }
  unfold run_inference_on_text, Spec.pipeline.
  destruct (parse_text libs text) as [parsed|e]; simpl.
  - rewrite Htry.
    destruct (Scorer.predict store (extract_features parsed)) as [s|e] eqn:Hp;
      simpl.
    + split; [reflexivity|]. split.
      * intros out H; injection H as <-; simpl. auto.
      * intros parsed' score H1 H2.
        injection H1 as <-. rewrite Hp in H2. injection H2 as <-. reflexivity.
    + split; [reflexivity|]. split.
      * intros out H; discriminate H.
      * intros parsed' score H1 H2.
        injection H1 as <-. rewrite Hp in H2. discriminate H2.
  - split; [reflexivity|]. split; intros; discriminate.
Qed.

Lemma run_inference_is_composition_witness :
  run_inference_on_text Demo.silent_libs (Demo.store_of Demo.clf_proba) "Alice B"
  = Spec.pipeline Demo.silent_libs (Demo.store_of Demo.clf_proba) "Alice B"
  /\ exists out,
       run_inference_on_text Demo.silent_libs (Demo.store_of Demo.clf_proba)
         "Alice B" = Ok out
       /\ Scorer.label (out_score out) = Some 1%Z.
Proof.
  assert (H : Scorer.load_model (Demo.store_of Demo.clf_proba)
              <> Raise FileNotFoundError) by discriminate.
  split.
  - exact (proj1 (run_inference_is_composition Demo.silent_libs
                    (Demo.store_of Demo.clf_proba) "Alice B" H)).
  - eexists. split; reflexivity.
Defined.

(** What the guard of [run_inference_on_text] does once [parse_text] has
    returned: a missing model file gives the placeholder score next to the
    same "parsed" and "features" fields, and an exception of any other type
    is passed on. *)
Lemma run_inference_guard (libs : TextLibs) (store : Scorer.ModelStore)
    (text : string) (parsed : Parsed) :
  parse_text libs text = Ok parsed ->
  (Scorer.load_model store = Raise FileNotFoundError ->
   run_inference_on_text libs store text
   = Ok {| out_parsed := parsed;
           out_features := extract_features parsed;
           out_score := no_score |})
  /\ (forall e, Scorer.load_model store = Raise e -> e <> FileNotFoundError ->
      run_inference_on_text libs store text = Raise e).
Proof.
  intros Hparse. unfold run_inference_on_text. rewrite Hparse; simpl. split.
  - intros Hload. rewrite (try_score_missing _ _ Hload). reflexivity.
  - intros e Hload Hne.
    pose proof (proj2 (predict_raises store (extract_features parsed) e) Hload)
      as Hp.
    rewrite (try_score_other _ _ _ Hp Hne). reflexivity.
Qed.

Example run_inference_broken_model :
  run_inference_on_text Demo.silent_libs Demo.broken_model "Alice B"
  = Raise (OtherError "UnpicklingError").
Proof.
  destruct (parse_text_returns Demo.silent_libs "Alice B") as [parsed Hp];
    [discriminate|].
  apply (proj2 (run_inference_guard Demo.silent_libs Demo.broken_model
                  "Alice B" parsed Hp));
    [reflexivity|discriminate].
Qed.

(** C2, at the failing input. On a blank text in which the recogniser finds
    no PERSON entity in the first 120 characters, [run_inference_on_text]
    raises the [IndexError] of [parse_text] whatever the state of the model
    file, so with the model file absent it does not return normally. *)
Theorem run_inference_blank_raises (libs : TextLibs)
    (store : Scorer.ModelStore) (text : string) :
  Py.strip text = EmptyString ->
  (forall ent, In ent (ner libs text) ->
     label_ ent = "PERSON" -> 120 <= start_char ent) ->
  run_inference_on_text libs store text = Raise IndexError.
Proof.
  intros Hblank Hents. unfold run_inference_on_text, parse_text.
  rewrite (extract_name_blank libs text Hblank Hents). reflexivity.
Qed.

Lemma run_inference_blank_raises_witness :
  Scorer.load_model Demo.no_model = Raise FileNotFoundError
  /\ run_inference_on_text Demo.silent_libs Demo.no_model EmptyString
     = Raise IndexError.
Proof.
  split; [reflexivity|].
  apply (run_inference_blank_raises Demo.silent_libs Demo.no_model EmptyString).
  - reflexivity.
  - simpl. intros ent [].
Defined.

(** ** estimate_years_experience *)

Lemma DATE_RE_findall_four_digits_bounded (n : nat) (dt : string) :
  String.length dt <= n -> List.Forall Spec.four_digits (DATE_RE_findall dt).
Proof.
  revert dt. induction n as [|n IH]; intros dt Hlen.
  - destruct dt; simpl in *; [constructor|lia].
  - destruct dt as [|a [|b [|c [|d rest]]]]; simpl; try constructor.
    destruct (all_digits4 a b c d) eqn:Hd.
    + constructor.
      * exists a, b, c, d. split; [reflexivity|exact Hd].
      * apply IH. simpl in Hlen. lia.
    + apply (IH (String b (String c (String d rest)))). simpl in *. lia.
Qed.

Lemma DATE_RE_findall_four_digits (dt : string) :
  List.Forall Spec.four_digits (DATE_RE_findall dt).
Proof. apply (DATE_RE_findall_four_digits_bounded (String.length dt)); lia. Qed.

Lemma digit_val_digit (c : ascii) :
  Py.isdigit c = true -> Py.digit_val c = Some (Z.of_nat (Py.code c) - 48)%Z.
Proof. intros H. unfold Py.digit_val. rewrite H. reflexivity. Qed.

(** [int] never fails on what [DATE_RE] finds: the [except] branches of the
    source are dead. *)
Lemma int_four_digits (f : string) :
  Spec.four_digits f -> Py.int f = Some (Spec.year_value f).
Proof.
  intros (a & b & c & d & -> & Hd). unfold all_digits4 in Hd.
  apply andb_prop in Hd. destruct Hd as [Hd Hd4].
  apply andb_prop in Hd. destruct Hd as [Hd Hd3].
  apply andb_prop in Hd. destruct Hd as [Hd1 Hd2].
  unfold Py.int, Spec.year_value; simpl.
  rewrite (digit_val_digit a Hd1), (digit_val_digit b Hd2),
    (digit_val_digit c Hd3), (digit_val_digit d Hd4).
  reflexivity.
Qed.

Lemma years_step_contribution (years : list Z) (exp : ExperienceItem) :
  years_step years exp
  = years ++ match Spec.contribution exp with Some y => [y] | None => [] end.
Proof.
  unfold years_step, Spec.contribution.
  pose proof (DATE_RE_findall_four_digits (default EmptyString (date_text exp)))
    as Hall.
  destruct (DATE_RE_findall (default EmptyString (date_text exp)))
    as [|f0 [|f1 fs]].
  - rewrite app_nil_r. reflexivity.
  - reflexivity.
  - inversion Hall as [|? ? H0 Hall']; subst.
    inversion Hall' as [|? ? H1 _]; subst.
    rewrite (int_four_digits f0 H0), (int_four_digits f1 H1). reflexivity.
Qed.

Lemma years_loop_contributions (exps : list ExperienceItem) (years : list Z) :
  fold_left years_step exps years = years ++ omap Spec.contribution exps.
Proof.
  revert years. induction exps as [|exp exps IH]; intros years; simpl.
  - rewrite app_nil_r. reflexivity.
  - rewrite IH, years_step_contribution, <- app_assoc.
    destruct (Spec.contribution exp); reflexivity.
Qed.


Example years_zero_contribution :
  estimate_years_experience
    {| name := None; emails := None; phones := None; skills := None;
       experience :=
         Some [ {| title := None; date_text := Some "2022 - 2019";
                   bullets := Some ["a"; "b"] |} ];
       education := None; sections := None; raw_text := None |}
  = 0%Q.
Proof. vm_compute. reflexivity. Qed.

(** ** extract_skills *)

Lemma append_cons (c : ascii) (s t : string) :
  String.append (String c s) t = String c (String.append s t).
Proof. reflexivity. Qed.

Lemma append_nil (t : string) : String.append EmptyString t = t.
Proof. reflexivity. Qed.

Lemma prefix_app (p s : string) :
  String.prefix p s = true <-> exists after, s = String.append p after.
Proof.
  revert s. induction p as [|c p IH]; intros s; simpl.
  - split; [intros _; exists s; reflexivity|destruct s; reflexivity].
  - destruct s as [|c' s]; simpl.
    + split; [discriminate|].
      intros [after H]. rewrite append_cons in H. discriminate H.
    + destruct (ascii_dec c c') as [->|Hne].
      * rewrite IH.
        split; intros [after H]; exists after; rewrite append_cons in *;
          congruence.
      * split; [discriminate|].
        intros [after H]. rewrite append_cons in H. congruence.
Qed.

Lemma contains_nil (needle : string) :
  Py.contains needle EmptyString = String.prefix needle EmptyString.
Proof. simpl. apply orb_false_r. Qed.

Lemma contains_cons (needle : string) (c : ascii) (hay : string) :
  Py.contains needle (String c hay)
  = String.prefix needle (String c hay) || Py.contains needle hay.
Proof. reflexivity. Qed.

Lemma contains_substring (needle hay : string) :
  Py.contains needle hay = true <-> Spec.substring needle hay.
Proof.
  unfold Spec.substring. induction hay as [|c hay IH].
  - rewrite contains_nil, prefix_app. split.
    + intros [after H]. exists EmptyString, after. exact H.
    + intros (before & after & H). destruct before.
      * exists after. exact H.
      * rewrite append_cons in H. discriminate H.
  - rewrite contains_cons, orb_true_iff, prefix_app, IH. split.
    + intros [[after H]|(before & after & H)].
      * exists EmptyString, after. exact H.
      * exists (String c before), after. rewrite append_cons. congruence.
    + intros (before & after & H). destruct before as [|c' before].
      * left. exists after. exact H.
      * right. exists before, after. rewrite append_cons in H. congruence.
Qed.

Lemma found_loop_elem (text_low : string) (skills_seed : list string)
    (found : gset string) (s : string) :
  s ∈ fold_left
        (fun (found : gset string) s =>
           if Py.contains (Py.lower s) text_low then {[ s ]} ∪ found else found)
        skills_seed found
  <-> s ∈ found
      \/ (s ∈ skills_seed /\ Py.contains (Py.lower s) text_low = true).
Proof.
  revert found. induction skills_seed as [|x seed IH]; intros found; simpl.
  - split; [auto|]. intros [H|[H _]]; [exact H|]. inversion H.
  - rewrite IH. destruct (Py.contains (Py.lower x) text_low) eqn:Hx.
    + rewrite elem_of_union, elem_of_singleton, elem_of_cons. split.
      * intros [[->|H]|[H1 H2]]; auto.
      * intros [H|[[->|H1] H2]]; auto.
    + rewrite elem_of_cons. split.
      * intros [H|[H1 H2]]; auto.
      * intros [H|[[->|H1] H2]]; auto. congruence.
Qed.

Lemma sorted_spec (found : gset string) :
  Sorted String.le (sorted found)
  /\ NoDup (sorted found)
  /\ forall s, s ∈ sorted found <-> s ∈ found.
Proof.
  unfold sorted. split; [apply Sorted_merge_sort; apply _|].
  pose proof (merge_sort_Permutation String.le (elements found)) as Hperm.
  split.
  - rewrite Hperm. apply NoDup_elements.
  - intros s. rewrite Hperm. apply elem_of_elements.
Qed.

(** C6. For every input text, [extract_skills] returns the seed skills whose
    lowercase form occurs as a substring of the lowercased text, as a sorted
    list without duplicates; it is the only such list, and every element of
    it is a member of the seed list. *)
Theorem extract_skills_sorted_seed_matches (text : string)
    (skills_seed : list string) :
  Sorted String.le (extract_skills_from text skills_seed)
  /\ NoDup (extract_skills_from text skills_seed)
  /\ (forall s,
        s ∈ extract_skills_from text skills_seed
        <-> s ∈ skills_seed
            /\ Spec.substring (Py.lower s) (Py.lower text))
  /\ (forall l : list string,
        Sorted String.le l -> NoDup l ->
        (forall s, s ∈ l
                   <-> s ∈ skills_seed
                       /\ Spec.substring (Py.lower s) (Py.lower text)) ->
        l = extract_skills_from text skills_seed)
  /\ extract_skills text = extract_skills_from text SKILLS_SEED.
Proof.
  assert (Hmem : forall s,
            s ∈ extract_skills_from text skills_seed
            <-> s ∈ skills_seed
                /\ Spec.substring (Py.lower s) (Py.lower text)).
  { intros s. unfold extract_skills_from; cbv zeta.
    rewrite (proj2 (proj2 (sorted_spec _))), found_loop_elem,
      contains_substring.
    split; [intros [H|H]; [set_solver|exact H]|auto]. }
  destruct (sorted_spec
              (fold_left
                 (fun (found : gset string) s =>
                    if Py.contains (Py.lower s) (Py.lower text)
                    then {[ s ]} ∪ found else found)
                 skills_seed ∅)) as (Hsorted & Hnodup & _).
  split; [exact Hsorted|]. split; [exact Hnodup|]. split; [exact Hmem|].
  split; [|reflexivity].
  intros l Hl Hd Hl_mem.
  apply (Sorted_unique String.le); [exact Hl|exact Hsorted|].
  apply NoDup_Permutation; [exact Hd|exact Hnodup|].
  intros s. rewrite Hl_mem, Hmem. reflexivity.
Qed.

(** ** parse_experience_block *)

Section ExperienceLoop.

Variable libs : TextLibs.

Lemma bullets_same_line_index (rest : list string) (j : nat)
    (acc : list string) :
  j <= snd (bullets_same_line libs rest j acc) <= j + length rest.
Proof.
  revert j acc. induction rest as [|lj rest IH]; intros j acc; simpl.
  - lia.
  - destruct (2 <? length (Py.split lj)); simpl; [|lia].
    destruct (has_date libs lj); simpl; [lia|].
    specialize (IH (S j) (acc ++ [lj])). lia.
Qed.

Lemma bullets_lookahead_index (rest : list string) (j : nat)
    (acc : list string) :
  j <= snd (bullets_lookahead libs rest j acc) <= j + length rest.
Proof.
  revert j acc. induction rest as [|lj rest IH]; intros j acc; simpl.
  - lia.
  - destruct (has_date libs lj); simpl; [lia|].
    specialize (IH (S j) (acc ++ [lj])). lia.
Qed.

Lemma next_has_date_in_range (lines : list string) (i : nat) :
  next_has_date libs lines i = true -> i + 1 < length lines.
Proof.
  unfold next_has_date. intros H.
  destruct (lines !! (i + 1)) as [l|] eqn:Hl; [|discriminate].
  apply (lookup_lt_Some lines (i + 1) l Hl).
Qed.

(** How far one iteration moves the index, branch by branch. *)
Lemma exp_body_index (lines : list string) (i : nat) (line : string) :
  i < length lines ->
  snd (exp_body libs lines i line) <= length lines
  /\ match DATE_RANGE_RE_findall libs line with
     | _ :: _ => i + 1 <= snd (exp_body libs lines i line)
     | [] =>
         if next_has_date libs lines i
         then i + 2 <= snd (exp_body libs lines i line)
         else snd (exp_body libs lines i line) = i + 1
     end.
Proof.
  intros Hi. unfold exp_body.
  destruct (DATE_RANGE_RE_findall libs line) as [|d ds].
  - destruct (next_has_date libs lines i) eqn:Hnext.
    + pose proof (next_has_date_in_range lines i Hnext) as Hlt.
      pose proof (bullets_lookahead_index (drop (i + 2) lines) (i + 2) [])
        as Hj.
      rewrite length_drop in Hj.
      destruct (bullets_lookahead libs (drop (i + 2) lines) (i + 2) [])
        as [bs j]; simpl in *. lia.
    + simpl. lia.
  - pose proof (bullets_same_line_index (drop (i + 1) lines) (i + 1) [])
      as Hj.
    rewrite length_drop in Hj.
    destruct (bullets_same_line libs (drop (i + 1) lines) (i + 1) [])
      as [bs j]; simpl in *. lia.
Qed.

Lemma exp_iter_step (lines : list string) (st : exp_state) :
  exp_cond lines st = true ->
  fst st < fst (exp_iter libs lines st) <= length lines
  /\ length (snd (exp_iter libs lines st)) = S (length (snd st)).
Proof.
  unfold exp_cond, exp_iter. intros Hc. apply Nat.ltb_lt in Hc.
  destruct (lookup_lt_is_Some_2 lines (fst st) Hc) as [line Hline].
  rewrite Hline.
  pose proof (exp_body_index lines (fst st) line Hc) as [Hle Hbranch].
  destruct (exp_body libs lines (fst st) line) as [item i'] eqn:Hbody.
  simpl in *. rewrite length_app; simpl. split; [|lia].
  destruct (DATE_RANGE_RE_findall libs line); [|lia].
  destruct (next_has_date libs lines (fst st)); lia.
Qed.

(** The loop leaves through its condition, after [k] iterations with [k]
    at most the number of lines still ahead. *)
Lemma exp_loop_exits (lines : list string) (fuel : nat) (st : exp_state) :
  fst st <= length lines ->
  length lines - fst st <= fuel ->
  exists k : nat,
    k <= length lines - fst st
    /\ (forall m, m < k ->
          exp_cond lines (Nat.iter m (exp_iter libs lines) st) = true)
    /\ exp_cond lines (Nat.iter k (exp_iter libs lines) st) = false
    /\ exp_loop libs fuel lines st = Nat.iter k (exp_iter libs lines) st
    /\ length (snd (Nat.iter k (exp_iter libs lines) st))
       = length (snd st) + k.
Proof.
  revert st. induction fuel as [|fuel IH]; intros st Hle Hfuel.
  - exists 0. simpl. repeat split; try lia.
    unfold exp_cond. apply Nat.ltb_ge. lia.
  - simpl. destruct (exp_cond lines st) eqn:Hc.
    + destruct (exp_iter_step lines st Hc) as [Hstep Hout].
      destruct (IH (exp_iter libs lines st)) as (k & Hk & Hbefore & Hexit & Hloop & Hlen);
        [lia|lia|].
      exists (S k). rewrite Nat.iter_succ_r.
      split; [lia|]. split; [|split; [exact Hexit|split; [exact Hloop|lia]]].
      intros [|m] Hm; [exact Hc|].
      rewrite Nat.iter_succ_r. apply Hbefore. lia.
    + exists 0. simpl. repeat split; try lia. exact Hc.
Qed.

End ExperienceLoop.

(** C9. [parse_experience_block] terminates on every block_text.  Each
    iteration of its outer loop moves the line index strictly forward and
    never past the end: the branch with a date on the line resumes at an
    index of at least i+1, the lookahead branch at an index of at least i+2
    and the fallback branch at i+1.  So the loop condition fails after [k]
    iterations with [k] at most the number of non-blank lines, and the
    function returns the [k] items gathered by then. *)
Theorem parse_experience_block_terminates (libs : TextLibs)
    (block_text : string) :
  (forall (i : nat) (line : string),
     block_lines block_text !! i = Some line ->
     snd (exp_body libs (block_lines block_text) i line)
       <= length (block_lines block_text)
     /\ match DATE_RANGE_RE_findall libs line with
        | _ :: _ => i + 1 <= snd (exp_body libs (block_lines block_text) i line)
        | [] =>
            if next_has_date libs (block_lines block_text) i
            then i + 2 <= snd (exp_body libs (block_lines block_text) i line)
            else snd (exp_body libs (block_lines block_text) i line) = i + 1
        end)
  /\ exists k : nat,
       k <= length (block_lines block_text)
       /\ (forall m, m < k ->
             exp_cond (block_lines block_text)
               (Nat.iter m (exp_iter libs (block_lines block_text)) (0, []))
             = true)
       /\ exp_cond (block_lines block_text)
            (Nat.iter k (exp_iter libs (block_lines block_text)) (0, []))
          = false
       /\ parse_experience_block libs block_text
          = snd (Nat.iter k (exp_iter libs (block_lines block_text)) (0, []))
       /\ length (parse_experience_block libs block_text) = k.
Proof.
  split.
  - intros i line Hline. apply exp_body_index.
    apply (lookup_lt_Some _ _ _ Hline).
  - destruct (exp_loop_exits libs (block_lines block_text)
                (length (block_lines block_text)) (0, []))
      as (k & Hk & Hbefore & Hexit & Hloop & Hlen); simpl; [lia|lia|].
    exists k. simpl in Hk, Hlen.
    unfold parse_experience_block; cbv zeta. rewrite Hloop.
    repeat split; try assumption; lia.
Qed.

(** ** split_into_sections *)

Lemma string_append_assoc (a b c : string) :
  String.append (String.append a b) c = String.append a (String.append b c).
Proof.
  induction a as [|x a IH]; [reflexivity|].
  rewrite !append_cons, IH. reflexivity.
Qed.

Lemma string_append_nil_r (a : string) : String.append a EmptyString = a.
Proof.
  induction a as [|x a IH]; [reflexivity|]. rewrite append_cons, IH. reflexivity.
Qed.

Lemma text_of_app (xs ys : list string) :
  Spec.text_of (xs ++ ys) = String.append (Spec.text_of xs) (Spec.text_of ys).
Proof.
  induction xs as [|x xs IH]; [reflexivity|].
  change ((x :: xs) ++ ys) with (x :: (xs ++ ys)).
  change (Spec.text_of (x :: xs ++ ys))
    with (String.append x (String.append Py.LF (Spec.text_of (xs ++ ys)))).
  change (Spec.text_of (x :: xs))
    with (String.append x (String.append Py.LF (Spec.text_of xs))).
  rewrite IH, !string_append_assoc. reflexivity.
Qed.

(** ["\n".join(buffer) + "\n"] puts a line feed after every line. *)
Lemma join_text_of (l : string) (ls : list string) :
  String.append (Py.join Py.LF (l :: ls)) Py.LF = Spec.text_of (l :: ls).
Proof.
  revert l. induction ls as [|l' ls IH]; intros l.
  - reflexivity.
  - change (Py.join Py.LF (l :: l' :: ls))
      with (String.append l (String.append Py.LF (Py.join Py.LF (l' :: ls)))).
    rewrite !string_append_assoc, IH. reflexivity.
Qed.

Lemma appended_appended (old : option string) (xs ys : list string) :
  Spec.appended (Spec.appended old xs) ys = Spec.appended old (xs ++ ys).
Proof.
  destruct xs as [|x xs]; [reflexivity|].
  destruct ys as [|y ys].
  - rewrite app_nil_r. reflexivity.
  - change ((x :: xs) ++ y :: ys) with (x :: (xs ++ y :: ys)).
    unfold Spec.appended at 1 2 3. simpl default.
    rewrite string_append_assoc.
    change (x :: (xs ++ y :: ys)) with ((x :: xs) ++ y :: ys).
    rewrite text_of_app. reflexivity.
Qed.

Lemma lines_in_app (k : string) (a b : list (string * string)) :
  Spec.lines_in k (a ++ b) = Spec.lines_in k a ++ Spec.lines_in k b.
Proof.
  unfold Spec.lines_in. rewrite List.filter_app, List.map_app. reflexivity.
Qed.

Lemma lines_in_current (k current : string) (buffer : list string) :
  Spec.lines_in k (map (fun l => (current, l)) buffer)
  = if String.eqb current k then buffer else [].
Proof.
  unfold Spec.lines_in. induction buffer as [|l ls IH]; simpl.
  - destruct (String.eqb current k); reflexivity.
  - destruct (String.eqb current k); simpl; rewrite IH; reflexivity.
Qed.

Lemma dict_get_append (d : dict) (k v k' : string) :
  dict_get (dict_append d k v) k'
  = if String.eqb k k'
    then Some (String.append (default EmptyString (dict_get d k)) v)
    else dict_get d k'.
Proof.
  induction d as [|[k0 v0] d IH]; simpl.
  - destruct (String.eqb k k'); reflexivity.
  - destruct (String.eqb_spec k0 k) as [->|Hne]; simpl.
    + destruct (String.eqb_spec k k') as [->|Hne'].
      * reflexivity.
      * reflexivity.
    + rewrite IH.
      destruct (String.eqb_spec k0 k') as [->|Hne'].
      * destruct (String.eqb_spec k k'); [congruence|reflexivity].
      * reflexivity.
Qed.

Lemma dict_keys_get (d : dict) (k : string) :
  In k (dict_keys d) <-> dict_get d k <> None.
Proof.
  induction d as [|[k0 v0] d IH]; simpl.
  - split; [intros []|congruence].
  - destruct (String.eqb_spec k0 k) as [->|Hne].
    + split; [discriminate|auto].
    + rewrite IH. split; [intros [H|H]; [congruence|exact H]|auto].
Qed.

Lemma dict_keys_append_NoDup (d : dict) (k v : string) :
  List.NoDup (dict_keys d) -> List.NoDup (dict_keys (dict_append d k v)).
Proof.
  induction d as [|[k0 v0] d IH]; simpl; intros Hd.
  - constructor; [intros []|constructor].
  - inversion Hd as [|? ? Hnotin Hd']; subst.
    destruct (String.eqb_spec k0 k) as [->|Hne]; simpl.
    + constructor; assumption.
    + constructor; [|apply IH; exact Hd'].
      rewrite dict_keys_get, dict_get_append.
      destruct (String.eqb_spec k k0) as [->|_]; [congruence|].
      rewrite <- dict_keys_get. exact Hnotin.
Qed.

(** What a flush leaves in the dictionary. *)
Lemma flush_get (st : split_state) (k : string) :
  dict_get (flush st) k
  = Spec.appended (dict_get (st_sections st) k)
      (Spec.lines_in k (map (fun l => (st_current st, l)) (st_buffer st))).
Proof.
  rewrite lines_in_current. unfold flush.
  destruct (st_buffer st) as [|l ls].
  - destruct (String.eqb (st_current st) k); reflexivity.
  - rewrite dict_get_append, join_text_of.
    destruct (String.eqb_spec (st_current st) k) as [->|Hne]; reflexivity.
Qed.

Lemma flush_NoDup (st : split_state) :
  List.NoDup (dict_keys (st_sections st)) -> List.NoDup (dict_keys (flush st)).
Proof.
  intros Hd. unfold flush. destruct (st_buffer st); [exact Hd|].
  apply dict_keys_append_NoDup. exact Hd.
Qed.

(** The loop invariant of [split_into_sections], read at the end: the entry
    of every section is what it was, followed by the buffered lines and
    the lines of the rest of the input that belong to it. *)
Lemma split_loop_get (lines : list string) (st : split_state) (k : string) :
  dict_get (flush (fold_left split_step lines st)) k
  = Spec.appended (dict_get (st_sections st) k)
      (Spec.lines_in k
         (map (fun l => (st_current st, l)) (st_buffer st)
          ++ Spec.assign (st_current st) lines)).
Proof.
  revert st. induction lines as [|l ls IH]; intros st.
  - simpl. rewrite app_nil_r. apply flush_get.
  - simpl fold_left. rewrite IH. unfold split_step. simpl Spec.assign.
    destruct (String.length l =? 0).
    + simpl. rewrite flush_get, appended_appended, <- lines_in_app.
      reflexivity.
    + destruct (is_header l).
      * simpl. rewrite flush_get, appended_appended, <- lines_in_app.
        reflexivity.
      * simpl. rewrite map_app, <- app_assoc. reflexivity.
Qed.

Lemma split_loop_NoDup (lines : list string) (st : split_state) :
  List.NoDup (dict_keys (st_sections st)) ->
  List.NoDup (dict_keys (st_sections (fold_left split_step lines st))).
Proof.
  revert st. induction lines as [|l ls IH]; intros st Hd; [exact Hd|].
  simpl. apply IH. unfold split_step.
  destruct (String.length l =? 0); [apply flush_NoDup; exact Hd|].
  destruct (is_header l); [apply flush_NoDup; exact Hd|exact Hd].
Qed.

Lemma is_header_header_line (l : string) :
  is_header l = true <-> Spec.header_line l.
Proof.
  unfold is_header, Spec.header_line, header_key.
  rewrite andb_true_iff, Nat.leb_le, existsb_exists.
  split.
  - intros [(h & Hin & Hc) Hw]. split; [exact Hw|].
    exists h. split; [exact Hin|]. apply contains_substring. exact Hc.
  - intros [Hw (h & Hin & Hs)]. split; [|exact Hw].
    exists h. split; [exact Hin|]. apply contains_substring. exact Hs.
Qed.

(** The lines that [Spec.assign] keeps are the lines that are neither blank
    nor headers, in their order. *)
Lemma assign_content (current : string) (lines : list string) :
  map snd (Spec.assign current lines)
  = List.filter
      (fun l => negb (String.length l =? 0) && negb (is_header l)) lines.
Proof.
  revert current. induction lines as [|l ls IH]; intros current; simpl.
  - reflexivity.
  - destruct (String.length l =? 0); simpl; [apply IH|].
    destruct (is_header l); simpl; [apply IH|].
    rewrite IH. reflexivity.
Qed.

Lemma flat_map_lines_in_nil (keys : list string) :
  flat_map (fun k => Spec.lines_in k []) keys = [].
Proof. induction keys as [|k ks IH]; simpl; [reflexivity|exact IH]. Qed.

Lemma flat_map_lines_in_other (k0 l0 : string) (a : list (string * string))
    (keys : list string) :
  ~ In k0 keys ->
  flat_map (fun k => Spec.lines_in k ((k0, l0) :: a)) keys
  = flat_map (fun k => Spec.lines_in k a) keys.
Proof.
  induction keys as [|k ks IH]; simpl; intros Hnotin; [reflexivity|].
  rewrite IH by tauto. f_equal.
  unfold Spec.lines_in; simpl.
  destruct (String.eqb_spec k0 k) as [->|Hne]; [tauto|reflexivity].
Qed.

(** Sorting the assigned lines by section loses and repeats none. *)
Lemma lines_in_partition (a : list (string * string)) (keys : list string) :
  List.NoDup keys ->
  (forall k l, In (k, l) a -> In k keys) ->
  Permutation (flat_map (fun k => Spec.lines_in k a) keys) (map snd a).
Proof.
  intros Hd. induction a as [|[k0 l0] a IH]; intros Hkeys.
  - rewrite flat_map_lines_in_nil. constructor.
  - assert (Hin : In k0 keys) by (apply (Hkeys k0 l0); left; reflexivity).
    destruct (in_split k0 keys Hin) as (ks1 & ks2 & ->).
    apply NoDup_remove in Hd as Hd'. destruct Hd' as [_ Hnotin].
    rewrite flat_map_app. simpl flat_map.
    rewrite !flat_map_lines_in_other
      by (intros H; apply Hnotin; apply in_or_app; tauto).
    unfold Spec.lines_in at 2; simpl. rewrite String.eqb_refl; simpl.
    fold (Spec.lines_in k0 a).
    rewrite <- Permutation_middle. constructor.
    assert (IH' := IH ltac:(intros k l H; apply (Hkeys k l); right; exact H)).
    rewrite flat_map_app in IH'. simpl flat_map in IH'. exact IH'.
Qed.

Lemma assign_keys (text : string) (k l : string) :
  In (k, l) (Spec.assign "header" (split_lines text)) ->
  In k (dict_keys (split_into_sections text)).
Proof.
  intros Hin. apply dict_keys_get. unfold split_into_sections.
  rewrite split_loop_get; simpl.
  assert (Hl : In l (Spec.lines_in k (Spec.assign "header" (split_lines text)))).
  { unfold Spec.lines_in. apply in_map_iff. exists (k, l). split; [reflexivity|].
    apply filter_In. split; [exact Hin|]. simpl. apply String.eqb_refl. }
  destruct (Spec.lines_in k (Spec.assign "header" (split_lines text)));
    [destruct Hl|discriminate].
Qed.

(** *** Reading the lines back from a section's text *)

Lemma no_linebreak_snoc (s : string) (c : ascii) :
  Spec.no_linebreak s = true -> Py.is_linebreak c = false ->
  Spec.no_linebreak (Py.snoc s c) = true.
Proof.
  intros Hs Hc. unfold Py.snoc. induction s as [|x s IH].
  - simpl. rewrite Hc. reflexivity.
  - rewrite append_cons. simpl in *.
    apply andb_prop in Hs. destruct Hs as [Hx Hs].
    rewrite Hx, (IH Hs). reflexivity.
Qed.

Lemma splitlines_go_no_linebreak (s : string) (cur : option string)
    (after_cr : bool) :
  Spec.no_linebreak (default EmptyString cur) = true ->
  List.Forall (fun l => Spec.no_linebreak l = true)
    (Py.splitlines_go cur after_cr s).
Proof.
  revert cur after_cr. induction s as [|c s IH]; intros cur after_cr Hcur.
  - simpl. destruct cur; constructor; [exact Hcur|constructor].
  - simpl. destruct (after_cr && (Py.code c =? 10)); [apply IH; exact Hcur|].
    destruct (Py.is_linebreak c) eqn:Hc.
    + constructor; [destruct cur; exact Hcur|]. apply IH. reflexivity.
    + apply IH. simpl. apply no_linebreak_snoc; [|exact Hc].
      destruct cur; exact Hcur.
Qed.

Lemma lstrip_no_linebreak (p : ascii -> bool) (s : string) :
  Spec.no_linebreak s = true -> Spec.no_linebreak (Py.lstrip_by p s) = true.
Proof.
  induction s as [|c s IH]; simpl; intros Hs; [reflexivity|].
  apply andb_prop in Hs as Hs'. destruct Hs' as [Hc Hs'].
  destruct (p c); [apply IH; exact Hs'|exact Hs].
Qed.

Lemma rstrip_no_linebreak (p : ascii -> bool) (s : string) :
  Spec.no_linebreak s = true -> Spec.no_linebreak (Py.rstrip_by p s) = true.
Proof.
  induction s as [|c s IH]; simpl; intros Hs; [reflexivity|].
  apply andb_prop in Hs. destruct Hs as [Hc Hs].
  destruct (Py.is_empty (Py.rstrip_by p s) && p c); [reflexivity|].
  simpl. rewrite Hc, (IH Hs). reflexivity.
Qed.

Lemma split_lines_no_linebreak (text : string) :
  List.Forall (fun l => Spec.no_linebreak l = true) (split_lines text).
Proof.
  unfold split_lines, Py.splitlines.
  pose proof (splitlines_go_no_linebreak text None false eq_refl) as H.
  induction H as [|l ls Hl _ IH]; simpl; constructor; [|exact IH].
  unfold Py.strip, Py.strip_by.
  apply rstrip_no_linebreak, lstrip_no_linebreak. exact Hl.
Qed.

Lemma splitlines_go_line (l : string) (cur : option string) (rest : string) :
  Spec.no_linebreak l = true ->
  Py.splitlines_go cur false (String.append l (String.append Py.LF rest))
  = String.append (default EmptyString cur) l
      :: Py.splitlines_go None false rest.
Proof.
  revert cur. induction l as [|c l IH]; intros cur Hl.
  - rewrite string_append_nil_r. destruct cur; reflexivity.
  - simpl in Hl. apply andb_prop in Hl. destruct Hl as [Hc Hl].
    apply negb_true_iff in Hc.
    rewrite append_cons. simpl Py.splitlines_go. rewrite Hc.
    rewrite (IH _ Hl). simpl default. unfold Py.snoc.
    rewrite string_append_assoc. destruct cur; reflexivity.
Qed.

Lemma splitlines_text_of (ls : list string) :
  List.Forall (fun l => Spec.no_linebreak l = true) ls ->
  Py.splitlines (Spec.text_of ls) = ls.
Proof.
  unfold Py.splitlines. induction 1 as [|l ls Hl _ IH]; [reflexivity|].
  simpl Spec.text_of. rewrite (splitlines_go_line l None _ Hl), IH.
  reflexivity.
Qed.

Lemma lines_in_assign_In (k current l : string) (lines : list string) :
  In l (Spec.lines_in k (Spec.assign current lines)) -> In l lines.
Proof.
  unfold Spec.lines_in. intros H. apply in_map_iff in H.
  destruct H as ([k' l'] & Heq & Hin). simpl in Heq. subst l'.
  apply filter_In in Hin. destruct Hin as [Hin _].
  assert (Hs : In l (map snd (Spec.assign current lines))).
  { apply in_map_iff. exists (k', l). split; [reflexivity|exact Hin]. }
  rewrite assign_content in Hs. apply filter_In in Hs. tauto.
Qed.

(** Python reads the text of a section back as the lines assigned to it. *)
Lemma section_text_lines (text k t : string) :
  dict_get (split_into_sections text) k = Some t ->
  Py.splitlines t
  = Spec.lines_in k (Spec.assign "header" (split_lines text)).
Proof.
  unfold split_into_sections. rewrite split_loop_get; simpl.
  pose proof (split_lines_no_linebreak text) as Hall.
  assert (Hk : List.Forall (fun l => Spec.no_linebreak l = true)
                 (Spec.lines_in k (Spec.assign "header" (split_lines text)))).
  { apply List.Forall_forall. intros l Hl.
    apply lines_in_assign_In in Hl.
    exact (proj1 (List.Forall_forall _ _) Hall l Hl). }
  destruct (Spec.lines_in k (Spec.assign "header" (split_lines text)))
    as [|l ls]; [discriminate|].
  intros H; injection H as <-. rewrite append_nil.
  exact (splitlines_text_of (l :: ls) Hk).
Qed.

Lemma dict_get_In (d : dict) (k v : string) :
  List.NoDup (dict_keys d) -> In (k, v) d -> dict_get d k = Some v.
Proof.
  induction d as [|[k0 v0] d IH]; simpl; intros Hd Hin; [destruct Hin|].
  inversion Hd as [|? ? Hnotin Hd']; subst.
  destruct Hin as [Heq|Hin].
  - injection Heq as -> ->. rewrite String.eqb_refl. reflexivity.
  - destruct (String.eqb_spec k0 k) as [->|Hne]; [|apply IH; assumption].
    exfalso. apply Hnotin. apply in_map_iff. exists (k, v). auto.
Qed.

Lemma flat_map_dict_keys (d : dict) (f : string -> list string)
    (g : string * string -> list string) :
  (forall kv, In kv d -> g kv = f (fst kv)) ->
  flat_map g d = flat_map f (dict_keys d).
Proof.
  induction d as [|kv d IH]; simpl; intros H; [reflexivity|].
  rewrite (H kv) by auto. rewrite IH by auto. reflexivity.
Qed.


(** * Further properties of the code *)

(** ** extract_phones and extract_emails *)

Lemma fromkeys_In (l : list string) (x : string) :
  In x (fromkeys l) <-> In x l.
Proof.
  induction l as [|y l IH]; simpl; [reflexivity|].
  rewrite filter_In, IH, negb_true_iff.
  destruct (String.eqb_spec y x) as [->|Hne].
  - split; auto.
  - split; [intros [H|[H _]]; auto|intros [H|H]; auto].
Qed.

Lemma fromkeys_NoDup (l : list string) : List.NoDup (fromkeys l).
Proof.
  induction l as [|y l IH]; simpl; constructor.
  - rewrite filter_In, String.eqb_refl. intros [_ H]. discriminate H.
  - apply List.NoDup_filter. exact IH.
Qed.

Lemma bool_filter_sublist {A : Type} (f : A -> bool) (l : list A) :
  sublist (List.filter f l) l.
Proof.
  induction l as [|x l IH]; simpl; [constructor|].
  destruct (f x); [apply sublist_skip|apply sublist_cons]; exact IH.
Qed.

Lemma fromkeys_sublist (l : list string) : sublist (fromkeys l) l.
Proof.
  induction l as [|y l IH]; simpl; [constructor|].
  apply sublist_skip. etransitivity; [apply bool_filter_sublist|exact IH].
Qed.

Lemma fromkeys_NoDup_id (l : list string) : List.NoDup l -> fromkeys l = l.
Proof.
  induction 1 as [|y l Hnotin _ IH]; simpl; [reflexivity|].
  rewrite IH. f_equal.
  apply List.forallb_filter_id. apply forallb_forall.
  intros z Hz. apply negb_true_iff.
  destruct (String.eqb_spec y z) as [->|]; [contradiction|reflexivity].
Qed.

(** X1. [extract_phones] returns every stripped match of [PHONE_RE] exactly
    once, in the order in which the matches occur in the text; a list of
    matches that are already distinct is returned as it is. *)
Theorem extract_phones_distinct_in_order (libs : TextLibs) (text : string) :
  List.NoDup (extract_phones libs text)
  /\ (forall p, In p (extract_phones libs text)
                <-> exists m, In m (PHONE_RE_matches libs text)
                              /\ p = Py.strip m)
  /\ sublist (extract_phones libs text)
       (map Py.strip (PHONE_RE_matches libs text))
  /\ (List.NoDup (map Py.strip (PHONE_RE_matches libs text)) ->
      extract_phones libs text = map Py.strip (PHONE_RE_matches libs text)).
Proof.
  unfold extract_phones.
  split; [apply fromkeys_NoDup|].
  split.
  { intros p. rewrite fromkeys_In, in_map_iff.
    split; intros (m & H1 & H2); exists m; auto. }
  split; [apply fromkeys_sublist|apply fromkeys_NoDup_id].
Qed.

(** X2. [extract_emails] returns the matches of [EMAIL_RE], each distinct
    match exactly once. *)
Theorem extract_emails_distinct (libs : TextLibs) (text : string) :
  NoDup (extract_emails libs text)
  /\ (forall e, e ∈ extract_emails libs text
                <-> e ∈ EMAIL_RE_matches libs text)
  /\ (extract_emails libs text = [] <-> EMAIL_RE_matches libs text = []).
Proof.
  unfold extract_emails.
  assert (Hmem : forall e,
            e ∈ elements (list_to_set (EMAIL_RE_matches libs text) : gset string)
            <-> e ∈ EMAIL_RE_matches libs text).
  { intros e. rewrite elem_of_elements, elem_of_list_to_set. reflexivity. }
  split; [apply NoDup_elements|]. split; [exact Hmem|].
  split; intros H.
  - destruct (EMAIL_RE_matches libs text) as [|m ms]; [reflexivity|].
    assert (Hm : m ∈ elements (list_to_set (m :: ms) : gset string))
      by (apply Hmem; left).
    rewrite H in Hm. inversion Hm.
  - rewrite H. reflexivity.
Qed.

(** ** Whitespace and lines *)

Lemma split_go_lstrip (s : string) :
  Py.split_go EmptyString (Py.lstrip_by Py.isspace s)
  = Py.split_go EmptyString s.
Proof.
  induction s as [|c s IH]; simpl; [reflexivity|].
  destruct (Py.isspace c) eqn:Hc; simpl; [exact IH|].
  rewrite Hc. reflexivity.
Qed.

Lemma split_go_rstrip (s cur : string) :
  Py.split_go cur (Py.rstrip_by Py.isspace s) = Py.split_go cur s.
Proof.
  revert cur. induction s as [|c s IH]; intros cur; simpl; [reflexivity|].
  destruct (Py.is_empty (Py.rstrip_by Py.isspace s)) eqn:He;
    destruct (Py.isspace c) eqn:Hc; simpl; rewrite ?Hc.
  - destruct (Py.rstrip_by Py.isspace s) eqn:Hr; [|discriminate He].
    destruct (Py.is_empty cur).
    + rewrite <- IH. reflexivity.
    + rewrite <- IH. reflexivity.
  - apply IH.
  - destruct (Py.is_empty cur); rewrite IH; reflexivity.
  - apply IH.
Qed.

(** [s.strip().split()] is [s.split()]. *)
Lemma split_strip (s : string) : Py.split (Py.strip s) = Py.split s.
Proof.
  unfold Py.split, Py.strip, Py.strip_by.
  rewrite split_go_rstrip. apply split_go_lstrip.
Qed.



(** ** extract_name and the errors of parse_text *)

Lemma find_leading_person (ents : list Ent) :
  match List.find
          (fun ent => String.eqb (label_ ent) "PERSON" && (start_char ent <? 120))
          ents with
  | Some ent => In ent ents /\ Notions.leading_person ent
  | None => forall ent, In ent ents -> ~ Notions.leading_person ent
  end.
Proof.
  destruct (List.find _ ents) as [ent|] eqn:Hfind.
  - apply find_some in Hfind. destruct Hfind as [Hin Hp].
    apply andb_prop in Hp. destruct Hp as [Hl Hs].
    apply String.eqb_eq in Hl. apply Nat.ltb_lt in Hs.
    split; [exact Hin|split; assumption].
  - intros ent Hin [Hl Hs].
    pose proof (find_none _ _ Hfind ent Hin) as Hp. simpl in Hp.
    apply String.eqb_eq in Hl. apply Nat.ltb_lt in Hs.
    rewrite Hl, Hs in Hp. discriminate Hp.
Qed.

(** X3. A name that [extract_name] returns is the text of a PERSON entity
    that starts in the first 120 characters, or else it comes from the first
    line of the stripped text: that line, stripped, when it has at most 4
    words, and the empty string otherwise; so a name from the fallback never
    has more than 4 words. *)
Theorem extract_name_origin (libs : TextLibs) (text n : string) :
  extract_name (nlp libs text) = Ok n ->
  (exists ent, In ent (ner libs text) /\ Notions.leading_person ent
               /\ n = ent_text ent)
  \/ ((forall ent, In ent (ner libs text) -> ~ Notions.leading_person ent)
      /\ length (Py.split n) <= 4
      /\ exists first rest,
           Py.splitlines (Py.strip text) = first :: rest
           /\ n = (if length (Py.split first) <=? 4 then Py.strip first
                   else EmptyString)).
Proof.
  unfold extract_name, nlp; simpl.
  pose proof (find_leading_person (ner libs text)) as Hfind.
  destruct (List.find _ (ner libs text)) as [ent|].
  - intros H; injection H as <-. left. exists ent. tauto.
  - destruct (Py.splitlines (Py.strip text)) as [|first rest] eqn:Hl;
      [discriminate|].
    intros H. right. split; [exact Hfind|].
    destruct (length (Py.split first) <=? 4) eqn:Hw;
      injection H as <-.
    + split; [rewrite split_strip; apply Nat.leb_le; exact Hw|].
      exists first, rest. rewrite Hw. auto.
    + split; [simpl; lia|]. exists first, rest. rewrite Hw. auto.
Qed.

Lemma extract_name_origin_witness :
  (exists ent, In ent (ner Demo.silent_libs "Alice B")
               /\ Notions.leading_person ent /\ "Alice B" = ent_text ent)
  \/ ((forall ent, In ent (ner Demo.silent_libs "Alice B")
                   -> ~ Notions.leading_person ent)
      /\ length (Py.split "Alice B") <= 4
      /\ exists first rest,
           Py.splitlines (Py.strip "Alice B") = first :: rest
           /\ "Alice B" = (if length (Py.split first) <=? 4 then Py.strip first
                           else EmptyString)).
Proof.
  apply (extract_name_origin Demo.silent_libs "Alice B" "Alice B").
  reflexivity.
Defined.


(** ** The errors of run_inference_on_text and run_from_file *)

Lemma parse_text_raises_IndexError (libs : TextLibs) (text : string) (e : exn) :
  parse_text libs text = Raise e -> e = IndexError.
Proof.
  unfold parse_text, extract_name, nlp; simpl.
  destruct (List.find _ (ner libs text)); simpl; [discriminate|].
  destruct (Py.splitlines (Py.strip text)); simpl.
  - intros H; injection H as <-. reflexivity.
  - destruct (length (Py.split s) <=? 4); discriminate.
Qed.

Lemma try_score_cases (store : Scorer.ModelStore) (feats : gmap string pynum) :
  match Scorer.load_model store with
  | Ok _ => exists score, try_score store feats = Ok score
                          /\ Scorer.predict store feats = Ok score
  | Raise FileNotFoundError => try_score store feats = Ok no_score
  | Raise e => try_score store feats = Raise e
  end.
Proof.
  unfold try_score, Scorer.predict.
  destruct (Scorer.load_model store) as [[model feature_list]|e]; simpl.
  - eexists. split; reflexivity.
  - destruct e; reflexivity.
Qed.

Lemma run_inference_raise_cases (libs : TextLibs) (store : Scorer.ModelStore)
    (text : string) (e : exn) :
  run_inference_on_text libs store text = Raise e ->
  (e = IndexError /\ parse_text libs text = Raise IndexError)
  \/ (e <> FileNotFoundError /\ Scorer.load_model store = Raise e
      /\ exists parsed, parse_text libs text = Ok parsed).
Proof.
  unfold run_inference_on_text.
  destruct (parse_text libs text) as [parsed|e'] eqn:Hparse; simpl.
  - pose proof (try_score_cases store (extract_features parsed)) as Hc.
    destruct (Scorer.load_model store) as [loaded|e''].
    + destruct Hc as (score & -> & _). discriminate.
    + destruct e''; rewrite Hc; simpl; try discriminate;
        intros H; injection H as <-; right;
        (split; [discriminate|split; [reflexivity|eauto]]).
  - intros H; injection H as <-.
    pose proof (parse_text_raises_IndexError libs text e' Hparse) as ->.
    left. auto.
Qed.

Lemma run_inference_not_FileNotFoundError (libs : TextLibs)
    (store : Scorer.ModelStore) (text : string) :
  run_inference_on_text libs store text <> Raise FileNotFoundError.
Proof.
  intros H.
  destruct (run_inference_raise_cases _ _ _ _ H) as [[H1 _]|[H1 _]]; congruence.
Qed.


(** X6. The "parsed" and "features" fields of the result do not depend on
    the model file: if [run_inference_on_text] returns with one model store,
    then with the model file absent it returns the same two fields next to
    the placeholder score. *)
Theorem run_inference_without_model (libs : TextLibs)
    (store missing : Scorer.ModelStore) (text : string) (out : Output) :
  run_inference_on_text libs store text = Ok out ->
  Scorer.path_exists missing = false ->
  run_inference_on_text libs missing text
  = Ok {| out_parsed := out_parsed out;
          out_features := out_features out;
          out_score := no_score |}.
Proof.
  unfold run_inference_on_text. intros Hrun Hmissing.
  destruct (parse_text libs text) as [parsed|e]; simpl in *; [|discriminate].
  assert (Hload : Scorer.load_model missing = Raise FileNotFoundError).
  { unfold Scorer.load_model. rewrite Hmissing. reflexivity. }
  rewrite (try_score_missing missing _ Hload). simpl.
  destruct (try_score store (extract_features parsed)); simpl in Hrun;
    [|discriminate].
  injection Hrun as <-. reflexivity.
Qed.

Lemma run_inference_without_model_witness :
  exists out,
    run_inference_on_text Demo.silent_libs (Demo.store_of Demo.clf_proba)
      "Alice B" = Ok out
    /\ run_inference_on_text Demo.silent_libs Demo.no_model "Alice B"
       = Ok {| out_parsed := out_parsed out;
               out_features := out_features out;
               out_score := no_score |}.
Proof.
  eexists. split; [reflexivity|].
  apply (run_inference_without_model Demo.silent_libs
           (Demo.store_of Demo.clf_proba) Demo.no_model "Alice B");
    reflexivity.
Defined.

(** X7. [run_from_file] raises [FileNotFoundError] only when reading the
    resume file does: a missing model file never shows as an exception, a
    missing resume file does. *)
Theorem run_from_file_not_found (fs : PredictFile.FileSystem)
    (libs : TextLibs) (store : Scorer.ModelStore) (path : string) :
  (PredictFile.run_from_file fs libs store path = Raise FileNotFoundError
   <-> fs path = Raise FileNotFoundError)
  /\ (forall text,
        fs path = Ok text ->
        PredictFile.run_from_file fs libs store path
        = run_inference_on_text libs store text).
Proof.
  unfold PredictFile.run_from_file.
  destruct (fs path) as [text|e]; simpl.
  - split.
    + split; [|discriminate].
      intros H. exfalso.
      exact (run_inference_not_FileNotFoundError libs store text H).
    + intros text' H; injection H as <-. reflexivity.
  - split; [|discriminate].
    split; intros H; injection H as ->; reflexivity.
Qed.

(** ** The sections dictionary *)

Lemma assign_In_origin (current : string) (lines : list string) (k l : string) :
  In (k, l) (Spec.assign current lines) ->
  (k = current
   \/ exists h, In h lines /\ is_header h = true /\ k = header_key h)
  /\ In l lines /\ Notions.content_line l = true.
Proof.
  unfold Notions.content_line.
  revert current. induction lines as [|x lines IH]; intros current; simpl.
  - intros [].
  - destruct (String.length x =? 0) eqn:Hx.
    + intros H. destruct (IH _ H) as ([->|(h & Hh & Hhd & ->)] & Hl & Hc).
      * auto.
      * split; [right; exists h; auto|auto].
    + destruct (is_header x) eqn:Hhx.
      * intros H. destruct (IH _ H) as ([->|(h & Hh & Hhd & ->)] & Hl & Hc).
        -- split; [right; exists x; auto|auto].
        -- split; [right; exists h; auto|auto].
      * intros [H|H].
        -- injection H as <- <-. rewrite Hx, Hhx. auto.
        -- destruct (IH _ H) as ([->|(h & Hh & Hhd & ->)] & Hl & Hc).
           ++ auto.
           ++ split; [right; exists h; auto|auto].
Qed.

Lemma lines_in_In (k l : string) (a : list (string * string)) :
  In l (Spec.lines_in k a) <-> In (k, l) a.
Proof.
  unfold Spec.lines_in. rewrite in_map_iff. split.
  - intros ([k' l'] & Heq & Hin). simpl in Heq. subst l'.
    apply filter_In in Hin. destruct Hin as [Hin Hk]. simpl in Hk.
    apply String.eqb_eq in Hk. subst k'. exact Hin.
  - intros Hin. exists (k, l). split; [reflexivity|].
    apply filter_In. split; [exact Hin|]. simpl. apply String.eqb_refl.
Qed.

Lemma section_entry (text k t : string) :
  In (k, t) (split_into_sections text) ->
  exists l ls,
    Spec.lines_in k (Spec.assign "header" (split_lines text)) = l :: ls
    /\ t = Spec.text_of (l :: ls).
Proof.
  intros Hin.
  assert (Hd : List.NoDup (dict_keys (split_into_sections text))).
  { unfold split_into_sections. apply flush_NoDup, split_loop_NoDup.
    simpl. constructor. }
  pose proof (dict_get_In _ _ _ Hd Hin) as Hget.
  unfold split_into_sections in Hget. rewrite split_loop_get in Hget.
  simpl in Hget.
  destruct (Spec.lines_in k (Spec.assign "header" (split_lines text)))
    as [|l ls]; [discriminate|].
  exists l, ls. split; [reflexivity|].
  injection Hget as <-. reflexivity.
Qed.

Lemma text_of_ends_with_LF (l : string) (ls : list string) :
  exists body, Spec.text_of (l :: ls) = String.append body Py.LF.
Proof.
  revert l. induction ls as [|l' ls IH]; intros l.
  - exists l. simpl. rewrite string_append_nil_r. reflexivity.
  - destruct (IH l') as [body Hbody].
    exists (String.append l (String.append Py.LF body)).
    change (Spec.text_of (l :: l' :: ls))
      with (String.append l (String.append Py.LF (Spec.text_of (l' :: ls)))).
    rewrite Hbody, !string_append_assoc. reflexivity.
Qed.

(** X8. Every key of the dictionary that [split_into_sections] returns is
    "header" or the lowercased, colon-stripped form of a header line of the
    text, which contains one of the header keywords; and every text in the
    dictionary ends with a line feed, so no section is stored empty. *)
Theorem split_into_sections_entries (text : string) :
  List.Forall
    (fun kv : string * string =>
       (fst kv = "header"
        \/ exists h,
             In h (split_lines text) /\ Spec.header_line h
             /\ fst kv = header_key h
             /\ exists kw, In kw SECTION_HEADERS /\ Spec.substring kw (fst kv))
       /\ exists body, snd kv = String.append body Py.LF)
    (split_into_sections text).
Proof.
  apply List.Forall_forall. intros [k t] Hin. simpl.
  destruct (section_entry text k t Hin) as (l & ls & Hlines & ->).
  split; [|apply text_of_ends_with_LF].
  assert (Hl : In (k, l) (Spec.assign "header" (split_lines text))).
  { apply lines_in_In. rewrite Hlines. left. reflexivity. }
  destruct (assign_In_origin _ _ _ _ Hl) as ([->|(h & Hh & Hhd & ->)] & _).
  - left. reflexivity.
  - right. exists h. apply is_header_header_line in Hhd as Hspec.
    split; [exact Hh|]. split; [exact Hspec|]. split; [reflexivity|].
    destruct Hspec as [_ (kw & Hkw & Hsub)]. exists kw. split; assumption.
Qed.

(** X9. [split_into_sections] returns the empty dictionary exactly when the
    text has no line that is neither blank nor a section header; the empty
    text is one such. *)
Theorem split_into_sections_empty_iff (text : string) :
  (split_into_sections text = []
   <-> List.filter Notions.content_line (split_lines text) = [])
  /\ split_into_sections EmptyString = [].
Proof.
  split; [|reflexivity].
  unfold Notions.content_line. rewrite <- (assign_content "header").
  split.
  - intros Hd.
    destruct (Spec.assign "header" (split_lines text)) as [|[k l] a] eqn:Ha;
      [reflexivity|].
    exfalso.
    assert (Hin : In k (dict_keys (split_into_sections text))).
    { apply (assign_keys text k l). rewrite Ha. left. reflexivity. }
    rewrite Hd in Hin. exact Hin.
  - intros Ha.
    destruct (split_into_sections text) as [|[k t] d] eqn:Hd; [reflexivity|].
    exfalso.
    destruct (section_entry text k t) as (l & ls & Hlines & _).
    { rewrite Hd. left. reflexivity. }
    assert (Hl : In (k, l) (Spec.assign "header" (split_lines text))).
    { apply lines_in_In. rewrite Hlines. left. reflexivity. }
    destruct (Spec.assign "header" (split_lines text)); [exact Hl|discriminate].
Qed.

(** ** The education entries *)

Lemma lstrip_head (p : ascii -> bool) (s : string) :
  match Py.lstrip_by p s with
  | EmptyString => True
  | String c _ => p c = false
  end.
Proof.
  induction s as [|c s IH]; simpl; [exact I|].
  destruct (p c) eqn:Hc; [exact IH|exact Hc].
Qed.

Lemma lstrip_fixed (p : ascii -> bool) (s : string) :
  match s with EmptyString => True | String c _ => p c = false end ->
  Py.lstrip_by p s = s.
Proof.
  destruct s as [|c s]; simpl; [reflexivity|]. intros ->. reflexivity.
Qed.

Lemma rstrip_head (p : ascii -> bool) (s : string) :
  match s with EmptyString => True | String c _ => p c = false end ->
  match Py.rstrip_by p s with
  | EmptyString => True
  | String c _ => p c = false
  end.
Proof.
  destruct s as [|c s]; simpl; [auto|]. intros Hc.
  rewrite Hc, andb_false_r. exact Hc.
Qed.

Lemma rstrip_rstrip (p : ascii -> bool) (s : string) :
  Py.rstrip_by p (Py.rstrip_by p s) = Py.rstrip_by p s.
Proof.
  induction s as [|c s IH]; simpl; [reflexivity|].
  destruct (Py.is_empty (Py.rstrip_by p s) && p c) eqn:Hc; [reflexivity|].
  simpl. rewrite IH, Hc. reflexivity.
Qed.

(** [s.strip().strip()] is [s.strip()]. *)
Lemma strip_strip (s : string) : Py.strip (Py.strip s) = Py.strip s.
Proof.
  unfold Py.strip, Py.strip_by.
  rewrite (lstrip_fixed _ (Py.rstrip_by Py.isspace (Py.lstrip_by Py.isspace s))).
  - apply rstrip_rstrip.
  - apply rstrip_head, lstrip_head.
Qed.

Lemma split_lines_stripped (text l : string) :
  In l (split_lines text) -> Py.strip l = l.
Proof.
  unfold split_lines. intros H. apply in_map_iff in H.
  destruct H as (x & <- & _). apply strip_strip.
Qed.

Lemma is_empty_length (l : string) :
  Py.is_empty l = (String.length l =? 0).
Proof. destruct l; reflexivity. Qed.

(** Reading a section back as [parse_text] does for the education entries,
    stripping the lines and dropping the blank ones, gives the lines of the
    section. *)
Lemma section_lines_read_back (text k t : string) :
  In (k, t) (split_into_sections text) ->
  List.filter (fun l => negb (Py.is_empty l)) (map Py.strip (Py.splitlines t))
  = Spec.lines_in k (Spec.assign "header" (split_lines text)).
Proof.
  intros Hin.
  assert (Hd : List.NoDup (dict_keys (split_into_sections text))).
  { unfold split_into_sections. apply flush_NoDup, split_loop_NoDup.
    simpl. constructor. }
  rewrite (section_text_lines text k t (dict_get_In _ _ _ Hd Hin)).
  assert (Hall : forall l,
            In l (Spec.lines_in k (Spec.assign "header" (split_lines text))) ->
            Py.strip l = l /\ negb (Py.is_empty l) = true).
  { intros l Hl. apply lines_in_In in Hl.
    destruct (assign_In_origin _ _ _ _ Hl) as (_ & Hlines & Hc).
    split; [apply (split_lines_stripped text l Hlines)|].
    unfold Notions.content_line in Hc. apply andb_prop in Hc.
    rewrite is_empty_length. tauto. }
  induction (Spec.lines_in k (Spec.assign "header" (split_lines text)))
    as [|l ls IH]; simpl; [reflexivity|].
  destruct (Hall l (or_introl eq_refl)) as [-> ->].
  rewrite IH; [reflexivity|]. intros l' Hl'. apply Hall. right. exact Hl'.
Qed.

(** X10. The education entries that [parse_text] gathers from the sections
    are, section by section in the order of the dictionary, the lines
    assigned to the sections whose key contains "education": stripping them
    again and dropping blank ones changes nothing, and every entry is a
    non-blank, non-header line of the input. *)
Theorem education_entries (libs : TextLibs) (text : string) :
  education_of (split_into_sections text)
  = flat_map
      (fun k =>
         if Py.contains "education" k
         then Spec.lines_in k (Spec.assign "header" (split_lines text))
         else [])
      (dict_keys (split_into_sections text))
  /\ List.Forall
       (fun entry => In entry (split_lines text)
                     /\ Notions.content_line entry = true)
       (education_of (split_into_sections text))
  /\ (forall parsed,
        parse_text libs text = Ok parsed ->
        education parsed = Some (education_of (split_into_sections text))).
Proof.
  assert (Heq : education_of (split_into_sections text)
                = flat_map
                    (fun k =>
                       if Py.contains "education" k
                       then Spec.lines_in k
                              (Spec.assign "header" (split_lines text))
                       else [])
                    (dict_keys (split_into_sections text))).
  { unfold education_of. apply flat_map_dict_keys.
    intros [k t] Hin. simpl.
    destruct (Py.contains "education" k); [|reflexivity].
    apply section_lines_read_back. exact Hin. }
  split; [exact Heq|]. split.
  - rewrite Heq. apply List.Forall_forall. intros entry Hentry.
    apply in_flat_map in Hentry. destruct Hentry as (k & _ & Hk).
    destruct (Py.contains "education" k); [|destruct Hk].
    apply lines_in_In in Hk.
    destruct (assign_In_origin _ _ _ _ Hk) as (_ & H1 & H2). auto.
  - intros parsed. unfold parse_text.
    destruct (extract_name (nlp libs text)); simpl; [|discriminate].
    intros H; injection H as <-. reflexivity.
Qed.

(** ** The items of parse_experience_block *)

Section ExperienceItems.

Variable libs : TextLibs.

Lemma bullets_same_line_taken (rest : list string) (j : nat)
    (acc : list string) :
  exists bs,
    fst (bullets_same_line libs rest j acc) = acc ++ bs
    /\ length bs + j = snd (bullets_same_line libs rest j acc)
    /\ List.Forall (fun b => In b rest /\ has_date libs b = false) bs.
Proof.
  revert j acc. induction rest as [|lj rest IH]; intros j acc; simpl.
  - exists []. rewrite app_nil_r. auto.
  - destruct (2 <? length (Py.split lj));
      [|exists []; rewrite app_nil_r; auto].
    destruct (has_date libs lj) eqn:Hd;
      [exists []; rewrite app_nil_r; auto|].
    destruct (IH (S j) (acc ++ [lj])) as (bs & Hfst & Hlen & Hall).
    exists (lj :: bs). rewrite Hfst, <- app_assoc. simpl.
    split; [reflexivity|]. split; [lia|].
    constructor; [auto|].
    apply List.Forall_impl with (2 := Hall). intros b [H1 H2]. auto.
Qed.

Lemma bullets_lookahead_taken (rest : list string) (j : nat)
    (acc : list string) :
  exists bs,
    fst (bullets_lookahead libs rest j acc) = acc ++ bs
    /\ length bs + j = snd (bullets_lookahead libs rest j acc)
    /\ List.Forall (fun b => In b rest /\ has_date libs b = false) bs.
Proof.
  revert j acc. induction rest as [|lj rest IH]; intros j acc; simpl.
  - exists []. rewrite app_nil_r. auto.
  - destruct (has_date libs lj) eqn:Hd;
      [exists []; rewrite app_nil_r; auto|].
    destruct (IH (S j) (acc ++ [lj])) as (bs & Hfst & Hlen & Hall).
    exists (lj :: bs). rewrite Hfst, <- app_assoc. simpl.
    split; [reflexivity|]. split; [lia|].
    constructor; [auto|].
    apply List.Forall_impl with (2 := Hall). intros b [H1 H2]. auto.
Qed.

Lemma In_drop (lines : list string) (n : nat) (b : string) :
  In b (drop n lines) -> In b lines.
Proof.
  revert n. induction lines as [|l lines IH]; intros [|n]; simpl; auto.
  intros H. right. exact (IH n H).
Qed.

(** One iteration: the item it appends is well formed, and the index moves
    on by at least one more than the number of its bullets. *)
Lemma exp_body_item (lines : list string) (i : nat) (line : string) :
  Notions.item_ok libs lines (fst (exp_body libs lines i line))
  /\ i + 1 + length (default [] (bullets (fst (exp_body libs lines i line))))
     <= snd (exp_body libs lines i line).
Proof.
  unfold exp_body, Notions.item_ok.
  destruct (DATE_RANGE_RE_findall libs line) as [|d ds].
  - destruct (next_has_date libs lines i).
    + destruct (bullets_lookahead_taken (drop (i + 2) lines) (i + 2) [])
        as (bs & Hfst & Hlen & Hall).
      destruct (bullets_lookahead libs (drop (i + 2) lines) (i + 2) [])
        as [bs' j]; simpl in *. subst bs'.
      split; [|lia].
      split; [eauto|]. split; [eauto|]. exists bs. split; [reflexivity|].
      apply List.Forall_impl with (2 := Hall). intros b [H1 H2].
      split; [exact (In_drop _ _ _ H1)|exact H2].
    + simpl. split; [|lia].
      split; [eauto|]. split; [eauto|]. exists []. split; [reflexivity|].
      constructor.
  - destruct (bullets_same_line_taken (drop (i + 1) lines) (i + 1) [])
      as (bs & Hfst & Hlen & Hall).
    destruct (bullets_same_line libs (drop (i + 1) lines) (i + 1) [])
      as [bs' j]; simpl in *. subst bs'.
    split; [|lia].
    split; [eauto|]. split; [eauto|]. exists bs. split; [reflexivity|].
    apply List.Forall_impl with (2 := Hall). intros b [H1 H2].
    split; [exact (In_drop _ _ _ H1)|exact H2].
Qed.

Lemma bullet_count_snoc (out : list ExperienceItem) (item : ExperienceItem) :
  Notions.bullet_count (out ++ [item])
  = Notions.bullet_count out + length (default [] (bullets item)).
Proof.
  induction out as [|x out IH]; simpl; [lia|]. rewrite IH. lia.
Qed.

Lemma exp_iter_inv (lines : list string) (st : exp_state) :
  Notions.exp_inv libs lines st ->
  Notions.exp_inv libs lines (exp_iter libs lines st).
Proof.
  unfold Notions.exp_inv, exp_iter. intros [Hcount Hall].
  destruct (lines !! fst st) as [line|]; [|auto].
  pose proof (exp_body_item lines (fst st) line) as [Hok Hidx].
  destruct (exp_body libs lines (fst st) line) as [item i']; simpl in *.
  rewrite length_app, bullet_count_snoc; simpl. split; [lia|].
  apply List.Forall_app. split; [exact Hall|]. constructor; [exact Hok|constructor].
Qed.

Lemma exp_loop_inv (fuel : nat) (lines : list string) (st : exp_state) :
  Notions.exp_inv libs lines st ->
  Notions.exp_inv libs lines (exp_loop libs fuel lines st).
Proof.
  revert st. induction fuel as [|fuel IH]; intros st Hinv; simpl; [exact Hinv|].
  destruct (exp_cond lines st); [|exact Hinv].
  apply IH, exp_iter_inv. exact Hinv.
Qed.

Lemma exp_loop_index (fuel : nat) (lines : list string) (st : exp_state) :
  fst st <= length lines -> fst (exp_loop libs fuel lines st) <= length lines.
Proof.
  revert st. induction fuel as [|fuel IH]; intros st Hle; simpl; [exact Hle|].
  destruct (exp_cond lines st) eqn:Hc; [|exact Hle].
  apply IH. destruct (exp_iter_step libs lines st Hc) as [H _]. lia.
Qed.

Lemma no_dates_body (lines : list string) (i : nat) (line : string) :
  (forall l, In l lines -> DATE_RANGE_RE_findall libs l = []) ->
  lines !! i = Some line ->
  exp_body libs lines i line = (Notions.plain_item line, i + 1).
Proof.
  intros Hnone Hline. unfold exp_body.
  rewrite (Hnone line) by (apply list_elem_of_In, (list_elem_of_lookup_2 _ _ _ Hline)).
  unfold next_has_date.
  destruct (lines !! (i + 1)) as [l|] eqn:Hl; [|reflexivity].
  unfold has_date, date_search.
  rewrite (Hnone l) by (apply list_elem_of_In, (list_elem_of_lookup_2 _ _ _ Hl)).
  reflexivity.
Qed.

Lemma no_dates_loop (lines : list string) (fuel i : nat)
    (out : list ExperienceItem) :
  (forall l, In l lines -> DATE_RANGE_RE_findall libs l = []) ->
  i <= length lines -> length lines - i <= fuel ->
  snd (exp_loop libs fuel lines (i, out))
  = out ++ map Notions.plain_item (drop i lines).
Proof.
  intros Hnone. revert i out.
  induction fuel as [|fuel IH]; intros i out Hle Hfuel; simpl.
  - rewrite drop_ge by lia. rewrite app_nil_r. reflexivity.
  - unfold exp_cond; simpl.
    destruct (i <? length lines) eqn:Hc.
    + apply Nat.ltb_lt in Hc.
      destruct (lookup_lt_is_Some_2 lines i Hc) as [line Hline].
      unfold exp_iter; simpl. rewrite Hline.
      rewrite (no_dates_body lines i line Hnone Hline).
      rewrite IH by lia.
      rewrite (drop_S lines line i Hline), Nat.add_1_r, <- app_assoc.
      reflexivity.
    + apply Nat.ltb_ge in Hc. simpl.
      rewrite drop_ge by lia. rewrite app_nil_r. reflexivity.
Qed.

End ExperienceItems.

(** X11. When [DATE_RANGE_RE] matches no line of the block,
    [parse_experience_block] returns one item per non-blank line, in order:
    the line, stripped, as title, an empty date_text and no bullets. *)
Theorem parse_experience_block_no_dates (libs : TextLibs)
    (block_text : string) :
  (forall l, In l (block_lines block_text) ->
             DATE_RANGE_RE_findall libs l = []) ->
  parse_experience_block libs block_text
  = map Notions.plain_item (block_lines block_text).
Proof.
  intros Hnone. unfold parse_experience_block; cbv zeta.
  rewrite (no_dates_loop libs _ _ 0 [] Hnone) by lia.
  reflexivity.
Qed.

Lemma parse_experience_block_no_dates_witness :
  parse_experience_block Demo.silent_libs ("Intern" +:+ Py.LF +:+ "  Tutor ")
  = [Notions.plain_item "Intern"; Notions.plain_item "Tutor"].
Proof.
  apply (parse_experience_block_no_dates Demo.silent_libs
           ("Intern" +:+ Py.LF +:+ "  Tutor ")).
  intros l _. reflexivity.
Defined.

(** X12. Every item that [parse_experience_block] returns has a title, a
    date_text and a bullets list; its bullets are non-blank lines of the
    block in which [DATE_RANGE_RE] finds no date; and the items and all
    their bullets together are at most as many as the non-blank lines of
    the block. *)
Theorem parse_experience_block_items (libs : TextLibs) (block_text : string) :
  List.Forall
    (fun item =>
       is_Some (title item) /\ is_Some (date_text item)
       /\ exists bs,
            bullets item = Some bs
            /\ List.Forall
                 (fun b => In b (block_lines block_text)
                           /\ DATE_RANGE_RE_findall libs b = [])
                 bs)
    (parse_experience_block libs block_text)
  /\ length (parse_experience_block libs block_text)
     + Notions.bullet_count (parse_experience_block libs block_text)
     <= length (block_lines block_text).
Proof.
  unfold parse_experience_block; cbv zeta.
  set (lines := block_lines block_text).
  assert (Hinit : Notions.exp_inv libs lines (0, [])).
  { split; [simpl; lia|constructor]. }
  pose proof (exp_loop_inv libs (length lines) lines (0, []) Hinit)
    as [Hcount Hall].
  pose proof (exp_loop_index libs (length lines) lines (0, [])
                ltac:(simpl; lia)) as Hidx.
  split; [|lia].
  apply List.Forall_impl with (2 := Hall).
  intros item (Ht & Hd & bs & Hbs & Hall').
  split; [exact Ht|]. split; [exact Hd|]. exists bs. split; [exact Hbs|].
  apply List.Forall_impl with (2 := Hall').
  intros b [Hin Hdate]. split; [exact Hin|].
  unfold has_date, date_search in Hdate.
  destruct (DATE_RANGE_RE_findall libs b); [reflexivity|discriminate].
Qed.

(** ** More on extract_skills *)

Lemma lower_char_lower_char (c : ascii) :
  Py.lower_char (Py.lower_char c) = Py.lower_char c.
Proof. destruct c as [[] [] [] [] [] [] [] []]; vm_compute; reflexivity. Qed.

(** [s.lower().lower()] is [s.lower()]. *)
Lemma lower_lower (s : string) : Py.lower (Py.lower s) = Py.lower s.
Proof.
  induction s as [|c s IH]; simpl; [reflexivity|].
  rewrite lower_char_lower_char, IH. reflexivity.
Qed.

Lemma lower_append (s t : string) :
  Py.lower (String.append s t) = String.append (Py.lower s) (Py.lower t).
Proof.
  induction s as [|c s IH]; [reflexivity|].
  rewrite append_cons. simpl. rewrite IH, append_cons. reflexivity.
Qed.

Lemma substring_lower (s t : string) :
  Spec.substring s t -> Spec.substring (Py.lower s) (Py.lower t).
Proof.
  intros (before & after & ->).
  exists (Py.lower before), (Py.lower after).
  rewrite !lower_append. reflexivity.
Qed.

Lemma substring_trans (a b c : string) :
  Spec.substring a b -> Spec.substring b c -> Spec.substring a c.
Proof.
  intros (b1 & b2 & ->) (c1 & c2 & ->).
  exists (String.append c1 b1), (String.append b2 c2).
  rewrite !string_append_assoc. reflexivity.
Qed.

Lemma skills_mem (text : string) (skills_seed : list string) (s : string) :
  s ∈ extract_skills_from text skills_seed
  <-> s ∈ skills_seed /\ Spec.substring (Py.lower s) (Py.lower text).
Proof.
  unfold extract_skills_from; cbv zeta.
  rewrite (proj2 (proj2 (sorted_spec _))), found_loop_elem, contains_substring.
  split; [intros [H|H]; [set_solver|exact H]|auto].
Qed.

(** X13. [extract_skills] ignores the case of the text: two texts with the
    same lowercase form give the same skills, and a text gives the same
    skills as its lowercase form. *)
Theorem extract_skills_ignores_case (text : string) (skills_seed : list string) :
  (forall text', Py.lower text' = Py.lower text ->
                 extract_skills_from text' skills_seed
                 = extract_skills_from text skills_seed)
  /\ extract_skills_from (Py.lower text) skills_seed
     = extract_skills_from text skills_seed
  /\ extract_skills (Py.lower text) = extract_skills text.
Proof.
  assert (H : forall text', Py.lower text' = Py.lower text ->
              extract_skills_from text' skills_seed
              = extract_skills_from text skills_seed).
  { intros text' Heq. unfold extract_skills_from; cbv zeta. rewrite Heq.
    reflexivity. }
  split; [exact H|]. split; [apply H, lower_lower|].
  unfold extract_skills, extract_skills_from; cbv zeta.
  rewrite lower_lower. reflexivity.
Qed.

(** X14. [extract_skills] is monotone in the text: every skill found in a
    text is found in every text that contains it. *)
Theorem extract_skills_monotone (text text' : string)
    (skills_seed : list string) :
  Spec.substring text text' ->
  forall s, s ∈ extract_skills_from text skills_seed ->
            s ∈ extract_skills_from text' skills_seed.
Proof.
  intros Hsub s. rewrite !skills_mem. intros [Hseed Hs].
  split; [exact Hseed|].
  apply (substring_trans _ (Py.lower text)); [exact Hs|].
  apply substring_lower. exact Hsub.
Qed.

Lemma extract_skills_monotone_witness :
  "python" ∈ extract_skills_from "I use Python daily" SKILLS_SEED.
Proof.
  apply (extract_skills_monotone "Python" "I use Python daily" SKILLS_SEED).
  - exists "I use ", " daily". reflexivity.
  - vm_compute. left.
Defined.

(** X15. Matching is by substring, so a seed skill whose lowercase form lies
    inside that of another seed skill is reported whenever the other is:
    with the default seed list, "sql" whenever "nosql" is, and "c" whenever
    "docker" is. *)
Theorem extract_skills_nested_seeds (text : string) (skills_seed : list string)
    (inner outer : string) :
  inner ∈ skills_seed ->
  Spec.substring (Py.lower inner) (Py.lower outer) ->
  outer ∈ extract_skills_from text skills_seed ->
  inner ∈ extract_skills_from text skills_seed.
Proof.
  intros Hseed Hsub. rewrite !skills_mem. intros [_ Houter].
  split; [exact Hseed|].
  exact (substring_trans _ _ _ Hsub Houter).
Qed.

Lemma extract_skills_nested_seeds_witness :
  "sql" ∈ extract_skills "We run NoSQL stores"
  /\ "c" ∈ extract_skills "Docker".
Proof.
  split.
  - apply (extract_skills_nested_seeds "We run NoSQL stores" SKILLS_SEED
             "sql" "nosql").
    + unfold SKILLS_SEED. set_solver.
    + exists "no", "". reflexivity.
    + vm_compute. left.
  - apply (extract_skills_nested_seeds "Docker" SKILLS_SEED "c" "docker").
    + unfold SKILLS_SEED. set_solver.
    + exists "do", "ker". reflexivity.
    + vm_compute. right. left.
Defined.

(** X16. [extract_skills] returns at most as many skills as the seed list
    has, and none on the empty text when no seed is empty; so the
    "skill_count" feature of a parsed text lies between 0 and 22. *)
Theorem skill_count_bounds (libs : TextLibs) (text : string)
    (skills_seed : list string) :
  length (extract_skills_from text skills_seed) <= length skills_seed
  /\ (EmptyString ∉ skills_seed ->
      extract_skills_from EmptyString skills_seed = [])
  /\ (forall parsed,
        parse_text libs text = Ok parsed ->
        (0 <= count_skills parsed <= 22)%Z
        /\ extract_features parsed !! "skill_count"
           = Some (PyInt (Z.of_nat (length (extract_skills text))))).
Proof.
  assert (Hlen : forall seed,
            length (extract_skills_from text seed) <= length seed).
  { intros seed. apply submseteq_length, NoDup_submseteq.
    - unfold extract_skills_from; cbv zeta. apply sorted_spec.
    - intros s Hs. apply skills_mem in Hs. tauto. }
  split; [apply Hlen|]. split.
  - intros Hne.
    destruct (extract_skills_from EmptyString skills_seed) as [|s l] eqn:Hs;
      [reflexivity|].
    exfalso.
    assert (Hin : s ∈ extract_skills_from EmptyString skills_seed)
      by (rewrite Hs; left).
    apply skills_mem in Hin. destruct Hin as [Hseed (before & after & Heq)].
    change (Py.lower EmptyString) with EmptyString in Heq.
    destruct before; [|rewrite append_cons in Heq; discriminate Heq].
    rewrite append_nil in Heq.
    destruct s; [contradiction|].
    change (Py.lower (String a s))
      with (String (Py.lower_char a) (Py.lower s)) in Heq.
    rewrite append_cons in Heq. discriminate Heq.
  - intros parsed. unfold parse_text.
    destruct (extract_name (nlp libs text)); simpl; [|discriminate].
    intros H; injection H as <-.
    pose proof (Hlen SKILLS_SEED) as H22.
    change (length SKILLS_SEED) with 22 in H22.
    split; [|reflexivity].
    change (0 <= Z.of_nat (length (extract_skills_from text SKILLS_SEED)) <= 22)%Z.
    lia.
Qed.

(** ** The range of the years of experience *)

Lemma isdigit_code (c : ascii) :
  Py.isdigit c = true -> 48 <= Py.code c <= 57.
Proof.
  unfold Py.isdigit; cbv zeta. intros H. apply andb_prop in H.
  destruct H as [H1 H2]. apply Nat.leb_le in H1, H2. lia.
Qed.

Lemma four_digits_value (f : string) :
  Spec.four_digits f -> (0 <= Spec.year_value f <= 9999)%Z.
Proof.
  intros (a & b & c & d & -> & Hd). unfold all_digits4 in Hd.
  apply andb_prop in Hd. destruct Hd as [Hd Hd4].
  apply andb_prop in Hd. destruct Hd as [Hd Hd3].
  apply andb_prop in Hd. destruct Hd as [Hd1 Hd2].
  apply isdigit_code in Hd1, Hd2, Hd3, Hd4.
  unfold Spec.year_value; simpl. lia.
Qed.

Lemma contribution_range (exp : ExperienceItem) (y : Z) :
  Spec.contribution exp = Some y -> (0 <= y <= 9999)%Z.
Proof.
  unfold Spec.contribution.
  pose proof (DATE_RE_findall_four_digits (default EmptyString (date_text exp)))
    as Hall.
  destruct (DATE_RE_findall (default EmptyString (date_text exp)))
    as [|f0 [|f1 fs]]; [discriminate| |].
  - intros H; injection H as <-. lia.
  - inversion Hall as [|? ? H0 Hall']; subst.
    inversion Hall' as [|? ? H1 _]; subst.
    apply four_digits_value in H0, H1.
    intros H; injection H as <-. lia.
Qed.

Lemma contributions_sum_range (exps : list ExperienceItem) :
  (0 <= sum_Z (omap Spec.contribution exps)
   <= 9999 * Z.of_nat (length exps))%Z.
Proof.
  induction exps as [|exp exps IH]; [simpl; lia|].
  change (length (exp :: exps)) with (S (length exps)).
  rewrite Nat2Z.inj_succ. cbn [omap list_omap].
  destruct (Spec.contribution exp) as [y|] eqn:Hy.
  - apply contribution_range in Hy. cbn [sum_Z fold_right]. fold (sum_Z (omap Spec.contribution exps)). lia.
  - lia.
Qed.

(** X17. The years-of-experience feature is never negative and at most
    9999 per experience item when a date_text holds a year; when none does,
    it lies between 1.0 and 20.0, and it is 1.0 for a resume without
    experience items. *)
Theorem estimate_years_experience_range (parsed : Parsed) :
  (0 <= estimate_years_experience parsed)%Q
  /\ (Spec.contributions parsed <> [] ->
      (estimate_years_experience parsed
       <= inject_Z (9999 * Z.of_nat (length (experience_list parsed))))%Q)
  /\ (Spec.contributions parsed = [] ->
      (1 <= estimate_years_experience parsed <= 20)%Q)
  /\ (experience_list parsed = [] ->
      (estimate_years_experience parsed == 1)%Q).
Proof.
  assert (Hyears : fold_left years_step (experience_list parsed) []
                   = Spec.contributions parsed).
  { rewrite years_loop_contributions. reflexivity. }
  pose proof (contributions_sum_range (experience_list parsed)) as Hsum.
  fold (Spec.contributions parsed) in Hsum.
  pose proof (total_bullets_nonneg parsed) as Hb.
  assert (Hfall : (1 <= Qmin (1 + inject_Z (total_bullets parsed) * (1 # 2)) 20
                   <= 20)%Q).
  { split; [|apply Q.le_min_r].
    apply Q.min_glb; [|unfold Qle; simpl; lia].
    unfold Qle, Qplus, Qmult, inject_Z; simpl. lia. }
  unfold estimate_years_experience. rewrite Hyears.
  destruct (Spec.contributions parsed) as [|y ys] eqn:Hc.
  - split; [apply Qle_trans with (2 := proj1 Hfall); unfold Qle; simpl; lia|].
    split; [congruence|]. split; [intros _; exact Hfall|].
    intros Hempty. unfold total_bullets. rewrite Hempty. reflexivity.
  - split; [change 0%Q with (inject_Z 0); rewrite <- Zle_Qle; lia|].
    split; [intros _; rewrite <- Zle_Qle; lia|].
    split; [discriminate|].
    intros Hempty. unfold Spec.contributions in Hc. rewrite Hempty in Hc.
    discriminate Hc.
Qed.

Lemma DATE_RE_findall_bounded (n : nat) (dt : string) :
  String.length dt <= n ->
  4 * length (DATE_RE_findall dt) <= String.length dt
  /\ List.Forall (fun f => Spec.substring f dt) (DATE_RE_findall dt).
Proof.
  revert dt. induction n as [|n IH]; intros dt Hlen.
  - destruct dt; simpl in *; [split; [lia|constructor]|lia].
  - destruct dt as [|a [|b [|c [|d rest]]]]; simpl;
      try (split; [lia|constructor]).
    destruct (all_digits4 a b c d).
    + destruct (IH rest) as [Hcount Hall]; [simpl in Hlen; lia|].
      split; [simpl; lia|]. constructor.
      * exists EmptyString, rest. reflexivity.
      * apply List.Forall_impl with (2 := Hall).
        intros f (before & after & ->).
        exists (String a (String b (String c (String d before)))), after.
        reflexivity.
    + destruct (IH (String b (String c (String d rest)))) as [Hcount Hall];
        [simpl in *; lia|].
      split; [simpl in *; lia|].
      apply List.Forall_impl with (2 := Hall).
      intros f (before & after & Heq).
      exists (String a before), after. rewrite append_cons, <- Heq.
      reflexivity.
Qed.

(** X18. [DATE_RE.findall] returns strings of exactly four decimal digits,
    each a substring of the date text and worth between 0 and 9999, and at
    most one for every four characters of the text. *)
Theorem DATE_RE_findall_years (dt : string) :
  List.Forall
    (fun f => Spec.four_digits f /\ Spec.substring f dt
              /\ (0 <= Spec.year_value f <= 9999)%Z
              /\ Py.int f = Some (Spec.year_value f))
    (DATE_RE_findall dt)
  /\ 4 * length (DATE_RE_findall dt) <= String.length dt.
Proof.
  destruct (DATE_RE_findall_bounded (String.length dt) dt (le_n _))
    as [Hcount Hsub].
  split; [|exact Hcount].
  pose proof (DATE_RE_findall_four_digits dt) as Hfour.
  induction (DATE_RE_findall dt) as [|f fs IH]; constructor.
  - inversion Hfour; inversion Hsub; subst.
    split; [assumption|]. split; [assumption|].
    split; [apply four_digits_value|apply int_four_digits]; assumption.
  - inversion Hfour; inversion Hsub; subst. apply IH; [|assumption|assumption].
    simpl in Hcount. lia.
Qed.

(** ** What scorer.predict reads of the features *)

Lemma predict_input (store : Scorer.ModelStore) (f1 f2 : gmap string pynum) :
  (forall model feature_list,
     Scorer.load_model store = Ok (model, feature_list) ->
     Scorer.classifier_input f1 feature_list
     = Scorer.classifier_input f2 feature_list) ->
  Scorer.predict store f1 = Scorer.predict store f2.
Proof.
  intros Hinput. unfold Scorer.predict.
  destruct (Scorer.load_model store) as [[model feature_list]|e]; simpl;
    [|reflexivity].
  rewrite (Hinput model feature_list eq_refl). reflexivity.
Qed.

(** X19. [scorer.predict] reads only the features named in the feature list
    of the model file: two feature dictionaries that agree on those give the
    same result. *)
Theorem predict_listed_features_only (store : Scorer.ModelStore)
    (f1 f2 : gmap string pynum) (model : Scorer.Classifier)
    (feature_list : list string) :
  Scorer.load_model store = Ok (model, feature_list) ->
  (forall k, In k feature_list -> f1 !! k = f2 !! k) ->
  Scorer.predict store f1 = Scorer.predict store f2.
Proof.
  intros Hload Hagree. apply predict_input.
  intros model' feature_list' Hload'. rewrite Hload in Hload'.
  injection Hload' as <- <-.
  unfold Scorer.classifier_input. apply map_ext_in.
  intros k Hk. rewrite (Hagree k Hk). reflexivity.
Qed.

Lemma predict_listed_features_only_witness :
  Scorer.predict (Demo.store_of Demo.clf_proba)
    (<["age" := PyInt 30]> (extract_features Demo.sample_parsed))
  = Scorer.predict (Demo.store_of Demo.clf_proba)
      (extract_features Demo.sample_parsed).
Proof.
  apply (predict_listed_features_only (Demo.store_of Demo.clf_proba) _ _
           Demo.clf_proba Demo.features4).
  - reflexivity.
  - intros k Hk. apply lookup_insert_ne.
    simpl in Hk. intuition (subst; discriminate).
Defined.

(** X20. For [scorer.predict] a feature that is missing is a feature that is
    0: removing a key from the feature dictionary and binding it to 0 give
    the same result. *)
Theorem predict_missing_is_zero (store : Scorer.ModelStore)
    (features : gmap string pynum) (k : string) :
  Scorer.predict store (delete k features)
  = Scorer.predict store (<[k := PyInt 0]> features).
Proof.
  apply predict_input. intros model feature_list _.
  unfold Scorer.classifier_input. apply map_ext. intros f.
  destruct (decide (k = f)) as [->|Hne].
  - rewrite lookup_delete_eq, lookup_insert_eq. reflexivity.
  - rewrite lookup_delete_ne, lookup_insert_ne by exact Hne. reflexivity.
Qed.





(** ** scorer.train and the pipeline *)

Lemma has_columns_In (columns : list string) :
  Train.has_columns columns = true
  <-> forall c, In c (Train.features ++ ["label"]) -> In c columns.
Proof.
  unfold Train.has_columns. rewrite forallb_forall.
  split; intros H c Hc; specialize (H c Hc).
  - apply existsb_exists in H. destruct H as (x & Hx & Heq).
    apply String.eqb_eq in Heq. subst x. exact Hx.
  - apply existsb_exists. exists c. split; [exact H|apply String.eqb_refl].
Qed.

Lemma train_ok (tl : Train.TrainLibs) (path model_type : string)
    (store : Scorer.ModelStore) :
  Train.train tl path model_type = Ok store ->
  exists df model,
    Train.read_csv tl path = Ok df
    /\ Train.has_columns (Train.df_columns tl df) = true
    /\ (if String.eqb model_type "rf" then Train.fit_rf tl df
        else Train.fit_lr tl df) = Ok model
    /\ store = {| Scorer.path_exists := true;
                  Scorer.joblib_load := Ok (model, Train.features) |}.
Proof.
  unfold Train.train.
  destruct (Train.read_csv tl path) as [df|e] eqn:Hread; simpl; [|discriminate].
  destruct (Train.has_columns (Train.df_columns tl df)) eqn:Hcols; simpl;
    [|discriminate].
  destruct (if String.eqb model_type "rf" then Train.fit_rf tl df
            else Train.fit_lr tl df) as [model|e] eqn:Hfit; simpl;
    [|discriminate].
  intros H; injection H as <-. exists df, model.
  split; [reflexivity|]. split; [exact Hcols|]. split; [exact Hfit|reflexivity].
Qed.



(** X23. [train] raises [ValueError] and writes no model file when the CSV
    file lacks one of the columns years_exp, skill_count, format_score,
    num_experience_items and label, whatever the model type; and when it
    succeeds, all five columns were there. *)
Theorem train_checks_columns (tl : Train.TrainLibs) (path model_type : string) :
  (forall df c,
     Train.read_csv tl path = Ok df ->
     In c (Train.features ++ ["label"]) ->
     ~ In c (Train.df_columns tl df) ->
     Train.train tl path model_type = Raise (OtherError "ValueError"))
  /\ (forall store,
        Train.train tl path model_type = Ok store ->
        exists df,
          Train.read_csv tl path = Ok df
          /\ forall c, In c (Train.features ++ ["label"]) ->
                       In c (Train.df_columns tl df)).
Proof.
  split.
  - intros df c Hread Hc Hmissing. unfold Train.train. rewrite Hread; simpl.
    destruct (Train.has_columns (Train.df_columns tl df)) eqn:Hcols;
      [|reflexivity].
    exfalso. apply Hmissing. exact (proj1 (has_columns_In _) Hcols c Hc).
  - intros store Htrain.
    destruct (train_ok tl path model_type store Htrain)
      as (df & model & Hread & Hcols & _).
    exists df. split; [exact Hread|]. apply has_columns_In. exact Hcols.
Qed.

(** ** parse_text and the sections *)

Lemma flat_map_all_nil {A B : Type} (f : A -> list B) (l : list A) :
  (forall x, In x l -> f x = []) -> flat_map f l = [].
Proof.
  induction l as [|x l IH]; simpl; intros H; [reflexivity|].
  rewrite (H x) by auto. rewrite IH by auto. reflexivity.
Qed.

Lemma sections_without_headers (text : string) :
  (forall l, In l (split_lines text) -> is_header l = false) ->
  split_into_sections text = []
  \/ exists t, split_into_sections text = [("header", t)].
Proof.
  intros Hnone.
  assert (Hkeys : forall k t, In (k, t) (split_into_sections text) ->
                              k = "header").
  { intros k t Hin.
    destruct (section_entry text k t Hin) as (l & ls & Hlines & _).
    assert (Hl : In (k, l) (Spec.assign "header" (split_lines text))).
    { apply lines_in_In. rewrite Hlines. left. reflexivity. }
    destruct (assign_In_origin _ _ _ _ Hl) as ([->|(h & Hh & Hhd & _)] & _);
      [reflexivity|].
    rewrite (Hnone h Hh) in Hhd. discriminate Hhd. }
  assert (Hd : List.NoDup (dict_keys (split_into_sections text))).
  { unfold split_into_sections. apply flush_NoDup, split_loop_NoDup.
    simpl. constructor. }
  destruct (split_into_sections text) as [|[k1 t1] [|[k2 t2] d]].
  - left. reflexivity.
  - right. exists t1. rewrite (Hkeys k1 t1) by (left; reflexivity).
    reflexivity.
  - exfalso.
    rewrite (Hkeys k1 t1) in Hd by (left; reflexivity).
    rewrite (Hkeys k2 t2) in Hd by (right; left; reflexivity).
    simpl in Hd. inversion Hd as [|? ? Hnotin _]. apply Hnotin. left.
    reflexivity.
Qed.

(** X24. A text without any section-header line has at most the one section
    "header": [parse_text], when it returns, reports no experience items and
    no education entries for it, so its features count 0 experience items
    and 1.0 year of experience. *)
Theorem parse_text_without_headers (libs : TextLibs) (text : string)
    (parsed : Parsed) :
  (forall l, In l (split_lines text) -> is_header l = false) ->
  parse_text libs text = Ok parsed ->
  experience parsed = Some []
  /\ education parsed = Some []
  /\ (sections parsed = Some [] \/ sections parsed = Some ["header"])
  /\ extract_features parsed !! "num_experience_items" = Some (PyInt 0)
  /\ (estimate_years_experience parsed == 1)%Q.
Proof.
  intros Hnone. unfold parse_text.
  destruct (extract_name (nlp libs text)) as [n|e]; cbn [bind]; [|discriminate].
  intros H; injection H as <-.
  assert (Hexp : experience_of libs (split_into_sections text) = []
                 /\ education_of (split_into_sections text) = []
                 /\ (dict_keys (split_into_sections text) = []
                     \/ dict_keys (split_into_sections text) = ["header"])).
  { destruct (sections_without_headers text Hnone) as [->|[t ->]].
    - repeat split. left. reflexivity.
    - repeat split. right. reflexivity. }
  destruct Hexp as (Hexp & Hedu & Hkeys).
  cbn [experience education sections].
  split; [rewrite Hexp; reflexivity|].
  split; [rewrite Hedu; reflexivity|].
  split; [destruct Hkeys as [-> | ->]; auto|].
  unfold extract_features, estimate_years_experience, total_bullets,
    experience_list; cbv zeta.
  cbn [experience]. rewrite Hexp. split; reflexivity.
Qed.

Lemma parse_text_without_headers_witness :
  exists parsed,
    parse_text Demo.silent_libs "Alice B" = Ok parsed
    /\ experience parsed = Some []
    /\ sections parsed = Some ["header"].
Proof.
  eexists. split; [reflexivity|].
  destruct (parse_text_without_headers Demo.silent_libs "Alice B" _
              ltac:(intros l [<-|[]]; reflexivity) eq_refl)
    as (Hexp & _ & _).
  split; [exact Hexp|reflexivity].
Defined.

Lemma bullet_count_app (xs ys : list ExperienceItem) :
  Notions.bullet_count (xs ++ ys)
  = Notions.bullet_count xs + Notions.bullet_count ys.
Proof.
  induction xs as [|x xs IH]; simpl; [reflexivity|]. rewrite IH. lia.
Qed.

Lemma block_lines_count (libs : TextLibs) (block_text : string) :
  length (parse_experience_block libs block_text)
  + Notions.bullet_count (parse_experience_block libs block_text)
  <= length (block_lines block_text).
Proof.
  unfold parse_experience_block; cbv zeta.
  set (lines := block_lines block_text).
  assert (Hinit : Notions.exp_inv libs lines (0, [])).
  { split; [simpl; lia|constructor]. }
  pose proof (exp_loop_inv libs (length lines) lines (0, []) Hinit)
    as [Hcount _].
  pose proof (exp_loop_index libs (length lines) lines (0, [])
                ltac:(simpl; lia)) as Hidx.
  lia.
Qed.

Lemma experience_of_count (libs : TextLibs) (text : string)
    (d : list (string * string)) :
  (forall kv, In kv d -> In kv (split_into_sections text)) ->
  length (experience_of libs d) + Notions.bullet_count (experience_of libs d)
  <= length (flat_map
               (fun k => Spec.lines_in k
                           (Spec.assign "header" (split_lines text)))
               (dict_keys d)).
Proof.
  induction d as [|[k t] d IH]; intros Hin; simpl; [lia|].
  rewrite !length_app, bullet_count_app.
  specialize (IH ltac:(intros kv H; apply Hin; right; exact H)).
  fold (experience_of libs d).
  assert (Hblock : block_lines t
                   = Spec.lines_in k (Spec.assign "header" (split_lines text))).
  { apply section_lines_read_back. apply Hin. left. reflexivity. }
  destruct (Py.contains "experience" k || Py.contains "work" k).
  - pose proof (block_lines_count libs t) as Hc. rewrite Hblock in Hc. lia.
  - simpl. lia.
Qed.

(** X25. The experience items that [parse_text] reports and all their
    bullets together are at most as many as the text has lines that are
    neither blank nor section headers. *)
Theorem parse_text_experience_count (libs : TextLibs) (text : string) :
  length (experience_of libs (split_into_sections text))
  + Notions.bullet_count (experience_of libs (split_into_sections text))
  <= length (List.filter Notions.content_line (split_lines text))
  /\ (forall parsed,
        parse_text libs text = Ok parsed ->
        experience parsed
        = Some (experience_of libs (split_into_sections text))).
Proof.
  split.
  - pose proof (experience_of_count libs text (split_into_sections text)
                  ltac:(auto)) as Hcount.
    assert (Hd : List.NoDup (dict_keys (split_into_sections text))).
    { unfold split_into_sections. apply flush_NoDup, split_loop_NoDup.
      simpl. constructor. }
    pose proof (lines_in_partition
                  (Spec.assign "header" (split_lines text))
                  (dict_keys (split_into_sections text)) Hd
                  (assign_keys text)) as Hperm.
    apply Permutation_length in Hperm.
    rewrite length_map in Hperm.
    unfold Notions.content_line.
    rewrite <- (assign_content "header"), length_map. lia.
  - intros parsed. unfold parse_text.
    destruct (extract_name (nlp libs text)); simpl; [|discriminate].
    intros H; injection H as <-. reflexivity.
Qed.
